(** * istsos-metadata-connector: the incremental harvest of [app/harvester.py]

    A shallow embedding of the signature function, the reconciler
    ([apply_incremental_harvest]), the location rule of the normalizer, the
    STAC and DCAT projectors and the loading of the persisted state, followed
    by the properties the specification states about them.

    Python values are JSON values: records are dictionaries in insertion
    order, identifiers are whatever the upstream service sent.  Python's
    [float] is kept abstract behind the interface [PyFloat]; everything else
    is computed. *)

From Stdlib Require Import String Ascii List Bool Arith ZArith Lia.
From Stdlib Require Import Permutation Sorted OrderedTypeEx.
From Stdlib Require Import DecimalString DecimalZ DecimalPos.
Import ListNotations.

Local Open Scope list_scope.
Local Open Scope string_scope.

(* ================================================================== *)
(** * Characters and decimal numerals *)

(** The double quote, the backslash and the apostrophe. *)
Definition dquote : ascii := "034"%char.
Definition backslash : ascii := "092"%char.
Definition squote : ascii := "039"%char.

Definition str1 (c : ascii) : string := String c EmptyString.

(** [str(int)]: decimal digits, a leading minus sign for negatives. *)
Definition dec (z : Z) : string := NilZero.string_of_int (Z.to_int z).

Definition hex_digit (n : nat) : ascii :=
  match String.get n "0123456789abcdef" with
  | Some c => c
  | None => "0"%char
  end.

(** [format(n, '02x')] for a code point below 256. *)
Definition hex2 (n : nat) : string :=
  String (hex_digit (n / 16)) (String (hex_digit (n mod 16)) EmptyString).

Fixpoint string_mem (c : ascii) (s : string) : bool :=
  match s with
  | EmptyString => false
  | String a s' => Ascii.eqb a c || string_mem c s'
  end.

Fixpoint string_flat_map (f : ascii -> string) (s : string) : string :=
  match s with
  | EmptyString => EmptyString
  | String c s' => f c ++ string_flat_map f s'
  end.

(* ================================================================== *)
(** * Python floats

    The harvester never computes with floats: it converts coordinates with
    [float(...)], tests truthiness and prints.  These four operations are the
    interface. [float_of_int] is [None] where Python raises
    [OverflowError]. *)

Class PyFloat : Type := {
  pyfloat : Type;
  float_repr : pyfloat -> string;      (* repr(x) and str(x) *)
  float_json : pyfloat -> string;      (* the text json.dumps writes *)
  float_of_int : Z -> option pyfloat;  (* float(n) *)
  float_truthy : pyfloat -> bool       (* bool(x) *)
}.

(** The characters a float can be written with by [json.dumps]:
    digits, sign, point, exponent, and the letters of NaN and Infinity. *)
Definition float_char (c : ascii) : bool :=
  string_mem c "0123456789+-.eNaInfinity".

Fixpoint string_forall (p : ascii -> bool) (s : string) : bool :=
  match s with
  | EmptyString => true
  | String c s' => p c && string_forall p s'
  end.

(** What [json.dumps] guarantees about the text of a float: distinct floats
    are written differently, the text is a non-empty number token, and it is
    never the text of an integer. *)
Class PyFloatLaws (PF : PyFloat) : Prop := {
  float_json_inj : forall f g : pyfloat, float_json f = float_json g -> f = g;
  float_json_token : forall f : pyfloat,
      float_json f <> EmptyString /\ string_forall float_char (float_json f) = true;
  float_json_not_int : forall (f : pyfloat) (z : Z), float_json f <> dec z
}.

(** A decimal implementation of the interface, used to run the definitions
    on concrete inputs: the float [m * 10^e] is the pair [(m, e)], written
    as the literal [<m>e<e>]. *)
Definition decfloat_text (x : Z * Z) : string :=
  dec (fst x) ++ String "e" (dec (snd x)).

#[export] Instance DecFloat : PyFloat := {|
  pyfloat := Z * Z;
  float_repr := decfloat_text;
  float_json := decfloat_text;
  float_of_int := fun z => Some (z, 0%Z);
  float_truthy := fun x => negb (Z.eqb (fst x) 0)
|}.

(* ================================================================== *)
(** * Exceptions *)

Inductive pyexc : Set :=
| AttributeError | KeyError | IndexError | TypeError | OverflowError
| UnicodeDecodeError.

Inductive result (A : Type) : Type :=
| Ok (a : A)
| Raise (e : pyexc).
Arguments Ok {A} a.
Arguments Raise {A} e.

Definition bind {A B : Type} (m : result A) (k : A -> result B) : result B :=
  match m with
  | Ok a => k a
  | Raise e => Raise e
  end.

Notation "x <- m ;; k" := (bind m (fun x => k))
  (at level 61, m at next level, right associativity).

(* ================================================================== *)
(** * Dictionaries

    A Python [dict] keeps its items in insertion order; keys are strings. *)

Definition dict (A : Type) : Type := list (string * A).

Fixpoint dict_get {A : Type} (key : string) (d : dict A) : option A :=
  match d with
  | [] => None
  | (k, v) :: d' => if String.eqb k key then Some v else dict_get key d'
  end.

(** [key in d] *)
Definition dict_mem {A : Type} (key : string) (d : dict A) : bool :=
  match dict_get key d with
  | Some _ => true
  | None => false
  end.

(** [d[key] = value]: an existing key keeps its position. *)
Fixpoint dict_set {A : Type} (key : string) (value : A) (d : dict A) : dict A :=
  match d with
  | [] => [(key, value)]
  | (k, v) :: d' =>
      if String.eqb k key then (k, value) :: d' else (k, v) :: dict_set key value d'
  end.

Definition dict_keys {A : Type} (d : dict A) : list string := map fst d.

Section Harvester.

Context {PF : PyFloat}.

(* ================================================================== *)
(** * JSON values *)

Unset Elimination Schemes.
Inductive json : Type :=
| JNull
| JBool (b : bool)
| JInt (z : Z)
| JFloat (f : pyfloat)
| JStr (s : string)
| JList (l : list json)
| JDict (d : list (string * json)).
Set Elimination Schemes.

(** [d.get(key)]: [None] when the key is missing. *)
Definition py_get (key : string) (d : dict json) : json :=
  match dict_get key d with
  | Some v => v
  | None => JNull
  end.

(** [d.get(key, default)] *)
Definition py_get_default (key : string) (default : json) (d : dict json) : json :=
  match dict_get key d with
  | Some v => v
  | None => default
  end.

(** [bool(v)] *)
Definition py_truthy (v : json) : bool :=
  match v with
  | JNull => false
  | JBool b => b
  | JInt z => negb (Z.eqb z 0)
  | JFloat f => float_truthy f
  | JStr s => negb (String.eqb s EmptyString)
  | JList l => match l with [] => false | _ :: _ => true end
  | JDict d => match d with [] => false | _ :: _ => true end
  end.

(** [a or b] *)
Definition py_or (a b : json) : json := if py_truthy a then a else b.

(** ** [repr] and [str] *)

(** Code points below 256 that [repr] writes as an escape. *)
Definition repr_unprintable (n : nat) : bool :=
  Nat.ltb n 32 || (Nat.leb 127 n && Nat.leb n 160) || Nat.eqb n 173.

Definition repr_char (quote c : ascii) : string :=
  if Ascii.eqb c quote || Ascii.eqb c backslash then String backslash (str1 c)
  else if Ascii.eqb c "009" then String backslash "t"
  else if Ascii.eqb c "010" then String backslash "n"
  else if Ascii.eqb c "013" then String backslash "r"
  else if repr_unprintable (nat_of_ascii c)
       then String backslash (String "x" (hex2 (nat_of_ascii c)))
  else str1 c.

(** [repr(s)] for a string: apostrophes around it, unless it holds an
    apostrophe and no double quote. *)
Definition repr_str (s : string) : string :=
  let quote := if string_mem squote s && negb (string_mem dquote s)
               then dquote else squote in
  String quote (string_flat_map (repr_char quote) s ++ str1 quote).

Fixpoint py_repr (v : json) : string :=
  match v with
  | JNull => "None"
  | JBool true => "True"
  | JBool false => "False"
  | JInt z => dec z
  | JFloat f => float_repr f
  | JStr s => repr_str s
  | JList l => "[" ++ String.concat ", " (map py_repr l) ++ "]"
  | JDict d =>
      "{" ++ String.concat ", "
               (map (fun kv => repr_str (fst kv) ++ ": " ++ py_repr (snd kv)) d)
          ++ "}"
  end.

(** [str(v)] *)
Definition py_str (v : json) : string :=
  match v with
  | JStr s => s
  | _ => py_repr v
  end.

(* ================================================================== *)
(** * [json.dumps(record, sort_keys=True, ensure_ascii=False)] *)

(** The replacement [py_encode_basestring] makes for one character: the
    quote, the backslash and the control characters are escaped, everything
    else is kept. *)
Definition escape_char (c : ascii) : string :=
  if Ascii.eqb c backslash then String backslash (str1 backslash)
  else if Ascii.eqb c dquote then String backslash (str1 dquote)
  else if Ascii.eqb c "008" then String backslash "b"
  else if Ascii.eqb c "012" then String backslash "f"
  else if Ascii.eqb c "010" then String backslash "n"
  else if Ascii.eqb c "013" then String backslash "r"
  else if Ascii.eqb c "009" then String backslash "t"
  else if Nat.ltb (nat_of_ascii c) 32
       then String backslash ("u00" ++ hex2 (nat_of_ascii c))
  else str1 c.

Definition py_encode_basestring (s : string) : string :=
  String dquote (string_flat_map escape_char s ++ str1 dquote).

(** The encoder, items in insertion order. *)
Fixpoint json_encode (v : json) : string :=
  match v with
  | JNull => "null"
  | JBool true => "true"
  | JBool false => "false"
  | JInt z => dec z
  | JFloat f => float_json f
  | JStr s => py_encode_basestring s
  | JList l => "[" ++ String.concat ", " (map json_encode l) ++ "]"
  | JDict d =>
      "{" ++ String.concat ", "
               (map (fun kv => py_encode_basestring (fst kv) ++ ": "
                                 ++ json_encode (snd kv)) d)
          ++ "}"
  end.

(** [sorted(items)]: a stable sort on the keys. *)
Fixpoint insert_item {A : Type} (x : string * A) (l : dict A) : dict A :=
  match l with
  | [] => [x]
  | y :: l' => if String.leb (fst x) (fst y) then x :: y :: l'
               else y :: insert_item x l'
  end.

Fixpoint sort_items {A : Type} (l : dict A) : dict A :=
  match l with
  | [] => []
  | x :: l' => insert_item x (sort_items l')
  end.

(** [sort_keys=True]: every dictionary, at every depth, is written with its
    items sorted by key. *)
Fixpoint sort_keys (v : json) : json :=
  match v with
  | JList l => JList (map sort_keys l)
  | JDict d => JDict (sort_items (map (fun kv => (fst kv, sort_keys (snd kv))) d))
  | _ => v
  end.

Definition json_dumps_sorted (v : json) : string := json_encode (sort_keys v).

(** A record object: the dictionary and the identity of the object holding
    it ([id(record)]), so that "the same object" can be told from "an equal
    one". *)
Record pyobj : Type := mkobj {
  obj_id : nat;
  obj_fields : dict json
}.

Definition record_signature (record : pyobj) : string :=
  json_dumps_sorted (JDict (obj_fields record)).

(* ================================================================== *)
(** * The reconciler: [apply_incremental_harvest] *)

Record harvest_stats : Set := mkstats {
  created : nat;
  updated : nat;
  unchanged : nat;
  total : nat
}.

(** The variables the main loop updates. *)
Record harvest_state : Type := mkstate {
  st_final_records : list pyobj;
  st_signatures : dict string;
  st_created : nat;
  st_updated : nat;
  st_unchanged : nat
}.

Definition initial_state : harvest_state := mkstate [] [] 0 0 0.

(** One round of the loop that fills [previous_by_id]. *)
Definition index_step (previous_by_id : dict pyobj) (record : pyobj) : dict pyobj :=
  match py_get "datastream_id" (obj_fields record) with
  | JNull => previous_by_id
  | datastream_id => dict_set (py_str datastream_id) record previous_by_id
  end.

Definition index_previous (previous_records : list pyobj) : dict pyobj :=
  fold_left index_step previous_records [].

(** [old_signature == current_signature], where [old_signature] is [None]
    when the key has no previous signature. *)
Definition signature_eqb (old_signature : option string) (current_signature : string)
  : bool :=
  match old_signature with
  | Some s => String.eqb s current_signature
  | None => false
  end.

(** One round of the main loop.  The test
    [old_signature == current_signature and key in previous_by_id] and the
    read [previous_by_id[key]] that it guards are one lookup here. *)
Definition harvest_step (previous_by_id : dict pyobj)
    (previous_signatures : dict string)
    (st : harvest_state) (record : pyobj) : harvest_state :=
  match py_get "datastream_id" (obj_fields record) with
  | JNull => st
  | datastream_id =>
      let key := py_str datastream_id in
      let current_signature := record_signature record in
      let old_signature := dict_get key previous_signatures in
      let signatures := dict_set key current_signature (st_signatures st) in
      match (if signature_eqb old_signature current_signature
             then dict_get key previous_by_id else None) with
      | Some previous_record =>
          mkstate (st_final_records st ++ [previous_record])%list signatures
                  (st_created st) (st_updated st) (S (st_unchanged st))
      | None =>
          if dict_mem key previous_signatures
          then mkstate (st_final_records st ++ [record])%list signatures
                       (st_created st) (S (st_updated st)) (st_unchanged st)
          else mkstate (st_final_records st ++ [record])%list signatures
                       (S (st_created st)) (st_updated st) (st_unchanged st)
      end
  end.

Definition harvest_loop (previous_records : list pyobj)
    (previous_signatures : dict string)
    (st : harvest_state) (records : list pyobj) : harvest_state :=
  fold_left (harvest_step (index_previous previous_records) previous_signatures)
            records st.

Definition apply_incremental_harvest (current_records previous_records : list pyobj)
    (previous_signatures : dict string)
  : list pyobj * dict string * harvest_stats :=
  let st := harvest_loop previous_records previous_signatures
                         initial_state current_records in
  (st_final_records st, st_signatures st,
   mkstats (st_created st) (st_updated st) (st_unchanged st)
           (length (st_final_records st))).

Definition final_records_of (out : list pyobj * dict string * harvest_stats)
  : list pyobj := fst (fst out).
Definition signatures_of (out : list pyobj * dict string * harvest_stats)
  : dict string := snd (fst out).
Definition stats_of (out : list pyobj * dict string * harvest_stats)
  : harvest_stats := snd out.

(* ================================================================== *)
(** * The normalizer's location rule: [_extract_location] *)

(** [v[0]] *)
Definition py_getitem0 (v : json) : result json :=
  match v with
  | JList (x :: _) => Ok x
  | JList [] => Raise IndexError
  | JStr (String c _) => Ok (JStr (str1 c))
  | JStr EmptyString => Raise IndexError
  | JDict _ => Raise KeyError
  | _ => Raise TypeError
  end.

(** [v.get(key)]: only dictionaries have the method. *)
Definition py_method_get (v : json) (key : string) : result json :=
  match v with
  | JDict d => Ok (py_get key d)
  | _ => Raise AttributeError
  end.

(** [isinstance(v, (int, float))]; [bool] is a subclass of [int]. *)
Definition is_number (v : json) : bool :=
  match v with
  | JInt _ | JFloat _ | JBool _ => true
  | _ => false
  end.

Definition float_of_int_result (z : Z) : result pyfloat :=
  match float_of_int z with
  | Some f => Ok f
  | None => Raise OverflowError
  end.

(** [float(v)] for a number [v]; [_extract_location] applies it to nothing
    else. *)
Definition py_float (v : json) : result pyfloat :=
  match v with
  | JFloat f => Ok f
  | JInt z => float_of_int_result z
  | JBool b => float_of_int_result (if b then 1 else 0)%Z
  | _ => Raise TypeError
  end.

Definition _extract_location (thing : dict json) : result json :=
  let locations := py_or (py_get "Locations" thing) (JList []) in
  if negb (py_truthy locations) then Ok JNull
  else
    first_location <- py_getitem0 locations ;;
    location_obj <- py_method_get first_location "location" ;;
    match location_obj with
    | JDict location_dict =>
        match py_get "coordinates" location_dict with
        | JList (c0 :: c1 :: _) =>
            if is_number c0 && is_number c1
            then lat <- py_float c1 ;;
                 lon <- py_float c0 ;;
                 Ok (JDict [("lat", JFloat lat); ("lon", JFloat lon)])
            else Ok JNull
        | _ => Ok JNull
        end
    | _ => Ok JNull
    end.

(* ================================================================== *)
(** * The catalog projectors *)

(** [s.rstrip("/")] *)
Fixpoint rstrip_slash (s : string) : string :=
  match s with
  | EmptyString => EmptyString
  | String c s' =>
      match rstrip_slash s' with
      | EmptyString => if Ascii.eqb c "/" then EmptyString else str1 c
      | r => String c r
      end
  end.

(** [isinstance(location, dict) and "lat" in location and "lon" in location] *)
Definition has_lat_lon (location : json) : bool :=
  match location with
  | JDict d => dict_mem "lat" d && dict_mem "lon" d
  | _ => false
  end.

(** [location[key]] under the test above. *)
Definition location_item (key : string) (location : json) : json :=
  match location with
  | JDict d => py_get key d
  | _ => JNull
  end.

Definition item_id_of (record : pyobj) : string :=
  "datastream-" ++ py_str (py_get "datastream_id" (obj_fields record)).

Definition stac_feature (collection_id normalized_root : string) (record : pyobj)
  : json :=
  let r := obj_fields record in
  let item_id := item_id_of record in
  let item_self_href := normalized_root ++ "/items/" ++ item_id in
  let location := py_get "location" r in
  let lat := location_item "lat" location in
  let lon := location_item "lon" location in
  let geometry :=
    if has_lat_lon location
    then JDict [("type", JStr "Point"); ("coordinates", JList [lon; lat])]
    else JNull in
  let bbox := if has_lat_lon location then JList [lon; lat; lon; lat] else JNull in
  let properties := JDict [
    ("thing_id", py_get "thing_id" r);
    ("thing_name", py_get_default "thing_name" (JStr EmptyString) r);
    ("description", py_get_default "description" (JStr EmptyString) r);
    ("sensor_type", py_get_default "sensor_type" (JStr EmptyString) r);
    ("observed_property", py_get_default "observed_property" (JStr EmptyString) r);
    ("unit_of_measurement", py_get_default "unit_of_measurement" (JStr EmptyString) r);
    ("observation_type", py_get_default "observation_type" (JStr EmptyString) r);
    ("sampling_frequency", py_get_default "sampling_frequency" (JStr EmptyString) r);
    ("time_range", py_get_default "time_range" (JStr EmptyString) r);
    ("datastream_id", py_get "datastream_id" r);
    ("start_datetime", py_or (py_get "start_time" r) JNull);
    ("end_datetime", py_or (py_get "end_time" r) JNull);
    ("datetime", py_or (py_get "last_observation_time" r) JNull)] in
  JDict [
    ("type", JStr "Feature");
    ("stac_version", JStr "1.0.0");
    ("id", JStr item_id);
    ("collection", JStr collection_id);
    ("geometry", geometry);
    ("bbox", bbox);
    ("properties", properties);
    ("links", JList [
       JDict [("rel", JStr "self"); ("href", JStr item_self_href)];
       JDict [("rel", JStr "root"); ("href", JStr normalized_root)]]);
    ("assets", JDict [])].

(** The loop over [records]: a record without identifier adds nothing. *)
Definition stac_features (collection_id normalized_root : string)
    (records : list pyobj) : list json :=
  flat_map (fun record =>
              match py_get "datastream_id" (obj_fields record) with
              | JNull => []
              | _ => [stac_feature collection_id normalized_root record]
              end) records.

Definition build_stac_item_collection (records : list pyobj)
    (collection_id root_href : string) : json :=
  let normalized_root := rstrip_slash root_href in
  JDict [
    ("type", JStr "FeatureCollection");
    ("links", JList [
       JDict [("rel", JStr "self"); ("href", JStr (normalized_root ++ "/items"))];
       JDict [("rel", JStr "root"); ("href", JStr normalized_root)]]);
    ("features", JList (stac_features collection_id normalized_root records))].

Definition dcat_dataset (record : pyobj) : json :=
  let r := obj_fields record in
  let dataset_id := item_id_of record in
  let dataset : dict json := [
    ("@id", JStr dataset_id);
    ("@type", JStr "dcat:Dataset");
    ("dct:identifier", JStr dataset_id);
    ("dct:title", py_or (py_get "datastream_name" r)
                        (py_get_default "thing_name" (JStr EmptyString) r));
    ("dct:description", py_get_default "description" (JStr EmptyString) r);
    ("dcat:keyword", JList [
       py_get_default "observed_property" (JStr EmptyString) r;
       py_get_default "sensor_type" (JStr EmptyString) r]);
    ("dct:temporal", JDict [
       ("schema:startDate", py_get_default "start_time" (JStr EmptyString) r);
       ("schema:endDate", py_get_default "end_time" (JStr EmptyString) r)])] in
  let location := py_get "location" r in
  if has_lat_lon location
  then JDict (dict_set "dct:spatial"
                (JDict [
                   ("@type", JStr "dct:Location");
                   ("locn:geometry", JDict [
                      ("type", JStr "Point");
                      ("coordinates", JList [location_item "lon" location;
                                             location_item "lat" location])])])
                dataset)
  else JDict dataset.

Definition dcat_datasets (records : list pyobj) : list json :=
  flat_map (fun record =>
              match py_get "datastream_id" (obj_fields record) with
              | JNull => []
              | _ => [dcat_dataset record]
              end) records.

Definition build_dcat_catalog (records : list pyobj) : json :=
  JDict [
    ("@context", JDict [
       ("dcat", JStr "http://www.w3.org/ns/dcat#");
       ("dct", JStr "http://purl.org/dc/terms/");
       ("locn", JStr "http://www.w3.org/ns/locn#");
       ("schema", JStr "https://schema.org/")]);
    ("@type", JStr "dcat:Catalog");
    ("dcat:dataset", JList (dcat_datasets records))].

(* ================================================================== *)
(** * The persisted state: [load_json_file] and its two callers *)

(** What reading a path can meet. *)
Inductive file_state : Type :=
| FileMissing                (* [path.exists()] is false *)
| FileUnreadable             (* [read_text] raises [OSError] *)
| FileNotUtf8                (* [read_text] raises [UnicodeDecodeError] *)
| FileInvalidJson            (* [json.loads] raises [JSONDecodeError] *)
| FileJson (content : json). (* the file holds this JSON document *)

(** Only [JSONDecodeError] and [OSError] are caught. *)
Definition load_json_file (file : file_state) (default : json) : result json :=
  match file with
  | FileMissing => Ok default
  | FileUnreadable => Ok default
  | FileNotUtf8 => Raise UnicodeDecodeError
  | FileInvalidJson => Ok default
  | FileJson content => Ok content
  end.

(** [v.get(key, default)] *)
Definition py_method_get_default (v : json) (key : string) (default : json)
  : result json :=
  match v with
  | JDict d => Ok (py_get_default key default d)
  | _ => Raise AttributeError
  end.

(** The previous state as [main] and [refresh_metadata] hand it to the
    reconciler: the [previous_records] and [previous_signatures]
    arguments. *)
Definition load_previous_state (records_file state_file : file_state)
  : result (list json * dict json) :=
  previous_records <- load_json_file records_file (JList []) ;;
  state_payload <-
    load_json_file state_file (JDict [("signatures", JDict [])]) ;;
  previous_signatures <-
    py_method_get_default state_payload "signatures" (JDict []) ;;
  Ok (match previous_records with JList l => l | _ => [] end,
      match previous_signatures with JDict d => d | _ => [] end).

(* ================================================================== *)
(** * The reconciler as the specification words it

    These definitions follow section 4.3 of the specification; the
    theorems below compare the loop above with them. *)

(** The identity key of a record: the string form of its [datastream_id],
    if it has one. *)
Definition identity_key (record : pyobj) : option string :=
  match py_get "datastream_id" (obj_fields record) with
  | JNull => None
  | datastream_id => Some (py_str datastream_id)
  end.

Inductive verdict : Type :=
| Dropped
| Unchanged (previous_record : pyobj)
| Updated
| Created.

(** Step 2 of the algorithm: dropped without key; unchanged when a previous
    signature exists, equals the current one and the index holds the key;
    otherwise updated when the key had a signature, else created. *)
Definition classify (previous_by_id : dict pyobj) (previous_signatures : dict string)
    (record : pyobj) : verdict :=
  match identity_key record with
  | None => Dropped
  | Some key =>
      match dict_get key previous_signatures with
      | None => Created
      | Some old =>
          if String.eqb old (record_signature record)
          then match dict_get key previous_by_id with
               | Some previous_record => Unchanged previous_record
               | None => Updated
               end
          else Updated
      end
  end.

(** The record a verdict emits. *)
Definition emitted (v : verdict) (record : pyobj) : list pyobj :=
  match v with
  | Dropped => []
  | Unchanged previous_record => [previous_record]
  | Updated | Created => [record]
  end.

Definition is_created (v : verdict) : bool :=
  match v with Created => true | _ => false end.
Definition is_updated (v : verdict) : bool :=
  match v with Updated => true | _ => false end.
Definition is_unchanged (v : verdict) : bool :=
  match v with Unchanged _ => true | _ => false end.

(** The signature map after the records of [records] were recorded into
    [signatures], one after the other. *)
Definition record_signatures (signatures : dict string) (records : list pyobj)
  : dict string :=
  fold_left (fun m record =>
               match identity_key record with
               | Some key => dict_set key (record_signature record) m
               | None => m
               end) records signatures.

(** The records that have an identity key, in their order. *)
Definition keyed (records : list pyobj) : list pyobj :=
  filter (fun record => match identity_key record with
                        | Some _ => true
                        | None => false
                        end) records.

(** The identity keys of a list of records, in their order. *)
Definition identity_keys (records : list pyobj) : list string :=
  flat_map (fun record => match identity_key record with
                          | Some key => [key]
                          | None => []
                          end) records.

(** The effect of a verdict on the variables of the loop. *)
Definition apply_verdict (st : harvest_state) (record : pyobj) (v : verdict)
  : harvest_state :=
  mkstate (st_final_records st ++ emitted v record)%list
          (record_signatures (st_signatures st) [record])
          (st_created st + (if is_created v then 1 else 0))
          (st_updated st + (if is_updated v then 1 else 0))
          (st_unchanged st + (if is_unchanged v then 1 else 0)).

(** The verdicts of a whole list of current records. *)
Definition verdicts (previous_records : list pyobj) (previous_signatures : dict string)
    (records : list pyobj) : list (pyobj * verdict) :=
  map (fun record =>
         (record, classify (index_previous previous_records) previous_signatures record))
      records.

Definition count_verdicts (p : verdict -> bool) (l : list (pyobj * verdict)) : nat :=
  length (filter (fun rv => p (snd rv)) l).

(** The records a run emits, by the verdicts. *)
Definition emitted_all (vs : list (pyobj * verdict)) : list pyobj :=
  flat_map (fun rv => emitted (snd rv) (fst rv)) vs.

(** The condition of step 2d for a record with identity key [key]. *)
Definition unchanged_condition (previous_records : list pyobj)
    (previous_signatures : dict string) (record : pyobj) (key : string) : Prop :=
  (exists old, dict_get key previous_signatures = Some old
               /\ old = record_signature record)
  /\ dict_mem key (index_previous previous_records) = true.

(* ================================================================== *)
(** * The location rule, in words *)

(** The rule of section 4.1 as it is written: the entry carries a geometry
    whose type is a point, with a numeric coordinate pair of two elements. *)
Definition point_with_pair (entry : dict json) : bool :=
  match dict_get "location" entry with
  | Some (JDict geometry) =>
      match dict_get "type" geometry, dict_get "coordinates" geometry with
      | Some (JStr t), Some (JList [c0; c1]) =>
          String.eqb t "Point" && is_number c0 && is_number c1
      | _, _ => false
      end
  | _ => false
  end.

(** What the entry has to carry for the code: a [location] dictionary whose
    [coordinates] is a list starting with the two numbers [c0] and [c1]. *)
Definition has_coordinate_pair (entry : dict json) (c0 c1 : json) : Prop :=
  exists (geometry : dict json) (more : list json),
    dict_get "location" entry = Some (JDict geometry)
    /\ dict_get "coordinates" geometry = Some (JList (c0 :: c1 :: more))
    /\ is_number c0 = true /\ is_number c1 = true.

(* ================================================================== *)
(** * Records with identical field values *)

Fixpoint nodupb (l : list string) : bool :=
  match l with
  | [] => true
  | x :: l' => negb (existsb (String.eqb x) l') && nodupb l'
  end.

(** A Python dictionary has each key once; so has every dictionary inside
    a well-formed value. *)
Fixpoint wf_json (v : json) : bool :=
  match v with
  | JList l => forallb wf_json l
  | JDict d => nodupb (map fst d) && forallb (fun kv => wf_json (snd kv)) d
  | _ => true
  end.

(** Two values hold the same data: lists agree item by item; dictionaries
    have as many items and every key of the first maps, in the second, to
    the same data.  The order of insertion plays no part. *)
Fixpoint same_value (v1 v2 : json) {struct v1} : Prop :=
  match v1, v2 with
  | JNull, JNull => True
  | JBool a, JBool b => a = b
  | JInt a, JInt b => a = b
  | JFloat a, JFloat b => a = b
  | JStr a, JStr b => a = b
  | JList l1, JList l2 =>
      (fix same_list (l1 l2 : list json) {struct l1} : Prop :=
         match l1, l2 with
         | [], [] => True
         | x :: l1', y :: l2' => same_value x y /\ same_list l1' l2'
         | _, _ => False
         end) l1 l2
  | JDict d1, JDict d2 =>
      length d1 = length d2
      /\ (fix same_items (d : list (string * json)) : Prop :=
            match d with
            | [] => True
            | kv :: d' =>
                match dict_get (fst kv) d2 with
                | Some v' => same_value (snd kv) v'
                | None => False
                end /\ same_items d'
            end) d1
  | _, _ => False
  end.

(** Induction on JSON values, with the hypothesis for the items of lists
    and dictionaries. *)
Definition json_ind (P : json -> Prop)
    (Hnull : P JNull) (Hbool : forall b, P (JBool b)) (Hint : forall z, P (JInt z))
    (Hfloat : forall f, P (JFloat f)) (Hstr : forall s, P (JStr s))
    (Hlist : forall l, Forall P l -> P (JList l))
    (Hdict : forall d, Forall (fun kv => P (snd kv)) d -> P (JDict d))
  : forall v, P v :=
  fix go (v : json) : P v :=
    match v with
    | JNull => Hnull
    | JBool b => Hbool b
    | JInt z => Hint z
    | JFloat f => Hfloat f
    | JStr s => Hstr s
    | JList l =>
        Hlist l ((fix go_list (l : list json) : Forall P l :=
                    match l with
                    | [] => Forall_nil P
                    | x :: l' => Forall_cons x (go x) (go_list l')
                    end) l)
    | JDict d =>
        Hdict d ((fix go_items (d : list (string * json))
                    : Forall (fun kv => P (snd kv)) d :=
                    match d with
                    | [] => Forall_nil _
                    | kv :: d' => Forall_cons kv (go (snd kv)) (go_items d')
                    end) d)
    end.

(** The order [sorted] puts the items in. *)
Definition key_le {A : Type} (a b : string * A) : Prop :=
  String.leb (fst a) (fst b) = true.

(** What [sort_keys] does to one item of a dictionary. *)
Definition sort_item (kv : string * json) : string * json :=
  (fst kv, sort_keys (snd kv)).

(* ================================================================== *)
(** * Reading the encoder's text

    The characters that end a value inside a list or a dictionary, the
    characters that open a string, a list or a dictionary, and the
    characters of a number or a literal. *)

Definition is_delim (c : ascii) : bool := string_mem c ",]}".

Definition is_opener (c : ascii) : bool :=
  Ascii.eqb c dquote || string_mem c "[{".

Definition is_plain (c : ascii) : bool := negb (is_delim c) && negb (is_opener c).

Definition dec_char (c : ascii) : bool := string_mem c "0123456789-".

(** What may follow a value: nothing, or a delimiter. *)
Definition closes (rest : string) : Prop :=
  match rest with
  | EmptyString => True
  | String c _ => is_delim c = true
  end.

Definition is_scalar (v : json) : bool :=
  match v with
  | JNull | JBool _ | JInt _ | JFloat _ => true
  | _ => false
  end.

Fixpoint is_prefix (a b : string) : bool :=
  match a, b with
  | EmptyString, _ => true
  | String x a', String y b' => Ascii.eqb x y && is_prefix a' b'
  | String _ _, EmptyString => false
  end.

Definition all_ascii : list ascii := map ascii_of_nat (seq 0 256).

(** The items after the first, each behind its separator, then [rest]. *)
Definition items_tail (texts : list string) (rest : string) : string :=
  fold_right (fun t acc => ", " ++ t ++ acc) rest texts.

Definition encode_item (kv : string * json) : string :=
  py_encode_basestring (fst kv) ++ ": " ++ json_encode (snd kv).

(** A value followed by [r1] can be read in one way only, when followed by
    nothing or by a delimiter. *)
Definition splits (v : json) : Prop :=
  forall (v2 : json) (r1 r2 : string),
    closes r1 -> closes r2 ->
    json_encode v ++ r1 = json_encode v2 ++ r2 -> v = v2 /\ r1 = r2.

End Harvester.

(* ================================================================== *)
(** * The normalizer: one record per datastream *)

(** [s.split(sep, 1)] when [sep] occurs in [s]: the text before the first
    occurrence and the text after it. *)
Fixpoint split_once (sep : ascii) (s : string) : option (string * string) :=
  match s with
  | EmptyString => None
  | String c s' =>
      if Ascii.eqb c sep then Some (EmptyString, s')
      else match split_once sep s' with
           | Some (before, after) => Some (String c before, after)
           | None => None
           end
  end.

(** The test ["/" not in time_range] and the split it guards are one
    search here. *)
Definition _extract_start_end (time_range : string) : string * string :=
  match split_once "/" time_range with
  | Some parts => parts
  | None => (EmptyString, EmptyString)
  end.

(** [n] slashes. *)
Fixpoint slashes (n : nat) : string :=
  match n with
  | 0 => EmptyString
  | S n' => String "/" (slashes n')
  end.

(** How a fetch ends. *)
Inductive fetch_exc : Set :=
| RequestFailed           (* raised by [requests.get], [raise_for_status]
                             or [response.json] *)
| PyError (e : pyexc).

Inductive fetched (A : Type) : Type :=
| Fetched (a : A)
| FetchFailed (e : fetch_exc).
Arguments Fetched {A} a.
Arguments FetchFailed {A} e.

Section Normalizer.

Context {PF : PyFloat}.

Definition _extract_time_range (datastream : dict json) : string :=
  match py_get "phenomenonTime" datastream with
  | JStr (String c s) => String c s
  | _ =>
      match py_get "resultTime" datastream with
      | JStr (String c s) => String c s
      | _ => EmptyString
      end
  end.

Definition _extract_unit (datastream : dict json) : string :=
  match py_get "unitOfMeasurement" datastream with
  | JDict unit =>
      match py_get "symbol" unit with
      | JStr (String c s) => String c s
      | _ =>
          match py_get "name" unit with
          | JStr name => name
          | _ => EmptyString
          end
      end
  | _ => EmptyString
  end.

(** The loop over the candidate keys: the first value that is not [None],
    as a string. *)
Fixpoint first_present (keys : list string) (properties : dict json) : string :=
  match keys with
  | [] => EmptyString
  | key :: keys' =>
      match py_get key properties with
      | JNull => first_present keys' properties
      | value => py_str value
      end
  end.

Definition _extract_sampling_frequency (datastream : dict json) : string :=
  match py_get "properties" datastream with
  | JDict properties =>
      first_present ["sampling_frequency"; "samplingFrequency"; "frequency"]
                    properties
  | _ => EmptyString
  end.

(** The items of the dictionary are evaluated in the order they are
    written, so the location is extracted before the sensor is asked for
    its name. *)
Definition _record_from_datastream (thing datastream : dict json)
  : result (dict json) :=
  let sensor := py_or (py_get "Sensor" datastream) (JDict []) in
  let observed_property := py_or (py_get "ObservedProperty" datastream) (JDict []) in
  let time_range := _extract_time_range datastream in
  let start_time := fst (_extract_start_end time_range) in
  let end_time := snd (_extract_start_end time_range) in
  let thing_description := py_get_default "description" (JStr EmptyString) thing in
  let datastream_description :=
    py_get_default "description" (JStr EmptyString) datastream in
  location <- _extract_location thing ;;
  sensor_type <- py_method_get_default sensor "name" (JStr EmptyString) ;;
  observed_property_name <-
    py_method_get_default observed_property "name" (JStr EmptyString) ;;
  Ok [("thing_id", py_get "@iot.id" thing);
      ("thing_name", py_get_default "name" (JStr EmptyString) thing);
      ("datastream_name", py_get_default "name" (JStr EmptyString) datastream);
      ("description", py_or datastream_description thing_description);
      ("location", location);
      ("sensor_type", sensor_type);
      ("observed_property", observed_property_name);
      ("unit_of_measurement", JStr (_extract_unit datastream));
      ("observation_type",
       py_get_default "observationType" (JStr EmptyString) datastream);
      ("sampling_frequency", JStr (_extract_sampling_frequency datastream));
      ("time_range", JStr time_range);
      ("start_time", JStr start_time);
      ("end_time", JStr end_time);
      ("last_observation_time", JStr end_time);
      ("datastream_id", py_get "@iot.id" datastream)].

(** What [v or {}] needs of [v] to be a dictionary. *)
Definition dict_or_falsy (v : json) : Prop :=
  py_truthy v = false \/ exists d, v = JDict d.

(** The names of the fields of a record, in the order they are written. *)
Definition record_keys : list string :=
  ["thing_id"; "thing_name"; "datastream_name"; "description"; "location";
   "sensor_type"; "observed_property"; "unit_of_measurement"; "observation_type";
   "sampling_frequency"; "time_range"; "start_time"; "end_time";
   "last_observation_time"; "datastream_id"].

(** ** The loop of [collect_metadata] *)

(** What a [for] loop, or [list.extend], runs over: the items of a list,
    the characters of a string, the keys of a dictionary. *)
Definition py_iter (v : json) : result (list json) :=
  match v with
  | JList l => Ok l
  | JStr s => Ok (map (fun c => JStr (str1 c)) (list_ascii_of_string s))
  | JDict d => Ok (map (fun kv => JStr (fst kv)) d)
  | _ => Raise TypeError
  end.

Fixpoint map_result {A B : Type} (f : A -> result B) (l : list A) : result (list B) :=
  match l with
  | [] => Ok []
  | x :: l' =>
      y <- f x ;;
      ys <- map_result f l' ;;
      Ok (y :: ys)
  end.

(** [_record_from_datastream(thing, datastream)] on whatever the loop
    hands over: the first thing it does is [datastream.get]. *)
Definition record_of_item (thing : dict json) (datastream : json)
  : result (dict json) :=
  match datastream with
  | JDict d => _record_from_datastream thing d
  | _ => Raise AttributeError
  end.

(** One round of the outer loop: the records one thing adds. *)
Definition records_of_thing (thing : json) : result (list (dict json)) :=
  match thing with
  | JDict t =>
      let datastreams := py_or (py_get "Datastreams" t) (JList []) in
      if negb (py_truthy datastreams) then Ok []
      else
        items <- py_iter datastreams ;;
        map_result (record_of_item t) items
  | _ => Raise AttributeError
  end.

(** The two loops over the fetched [things]. *)
Fixpoint records_of_things (things : list json) : result (list (dict json)) :=
  match things with
  | [] => Ok []
  | thing :: things' =>
      records <- records_of_thing thing ;;
      more <- records_of_things things' ;;
      Ok (records ++ more)%list
  end.

(** How many datastreams the loop finds in a thing. *)
Definition datastream_count (thing : json) : nat :=
  match thing with
  | JDict t =>
      match py_iter (py_or (py_get "Datastreams" t) (JList [])) with
      | Ok items => length items
      | Raise _ => 0
      end
  | _ => 0
  end.

(** The identifier both catalogs give to the record of a key. *)
Definition catalog_id (key : string) : json := JStr ("datastream-" ++ key).

(** [key in v] for an object [v]. *)
Definition has_key (key : string) (v : json) : bool :=
  match v with
  | JDict d => dict_mem key d
  | _ => false
  end.

(** ** Fetching the pages: [fetch_things_with_expand] *)

Definition things_url (endpoint : string) : string :=
  rstrip_slash endpoint
  ++ "/Things?$expand=Locations,Datastreams($expand=Sensor,ObservedProperty)".

Section Fetch.

(** The service: what [requests.get(url, ...)], [raise_for_status()] and
    [response.json()] give for a URL, [None] when one of them raises. *)
Variable http_get_json : json -> option json.

(** The [while url] loop; [None] when [fuel] pages were not enough. *)
Fixpoint fetch_pages (fuel : nat) (url : json) (things : list json)
  : option (fetched (list json)) :=
  if py_truthy url then
    match fuel with
    | 0 => None
    | S fuel' =>
        match http_get_json url with
        | None => Some (FetchFailed RequestFailed)
        | Some (JDict payload) =>
            match py_iter (py_get_default "value" (JList []) payload) with
            | Ok items =>
                fetch_pages fuel' (py_get "@iot.nextLink" payload)
                            (things ++ items)%list
            | Raise e => Some (FetchFailed (PyError e))
            end
        | Some _ => Some (FetchFailed (PyError AttributeError))
        end
    end
  else Some (Fetched things).

Definition fetch_things_with_expand (fuel : nat) (endpoint : string)
  : option (fetched (list json)) :=
  fetch_pages fuel (JStr (things_url endpoint)) [].

Definition collect_metadata (fuel : nat) (endpoint : string)
  : option (fetched (list (dict json))) :=
  match fetch_things_with_expand fuel endpoint with
  | None => None
  | Some (FetchFailed e) => Some (FetchFailed e)
  | Some (Fetched things) =>
      match records_of_things things with
      | Ok records => Some (Fetched records)
      | Raise e => Some (FetchFailed (PyError e))
      end
  end.

(** From [url], [n] pages answer with an object whose [value] can be run
    over; together they hold [items], and the last of them links to
    [url']. *)
Inductive follows : json -> list json -> nat -> json -> Prop :=
| follows_none (url : json) : follows url [] 0 url
| follows_page (url : json) (payload : dict json) (items rest : list json)
    (n : nat) (url' : json) :
    py_truthy url = true ->
    http_get_json url = Some (JDict payload) ->
    py_iter (py_get_default "value" (JList []) payload) = Ok items ->
    follows (py_get "@iot.nextLink" payload) rest n url' ->
    follows url (items ++ rest)%list (S n) url'.

End Fetch.

(** ** The statistics without incremental mode ([refresh_metadata]) *)

Definition full_harvest_stats (records : list pyobj) : harvest_stats :=
  mkstats (length records) 0 0 (length records).

(** ** Reading documents *)

(** [v[key]] read leniently: the value of a key of an object, [None]
    otherwise. *)
Definition json_field (key : string) (v : json) : json :=
  match v with
  | JDict d => py_get key d
  | _ => JNull
  end.

(** The previous state is consistent when the signature kept for a key is
    the signature of the previous record indexed at that key. *)
Definition consistent_state (previous_records : list pyobj)
    (previous_signatures : dict string) : Prop :=
  forall (k : string) (p : pyobj) (s : string),
    dict_get k (index_previous previous_records) = Some p ->
    dict_get k previous_signatures = Some s ->
    s = record_signature p.

End Normalizer.

(* ================================================================== *)
(** * Sample data: the scenarios of section 8 and a few more *)

(** The previous snapshot [{datastream_id: 1, v: "a"}] and its signature. *)
Definition prev_a : pyobj := mkobj 1 [("datastream_id", JInt 1); ("v", JStr "a")].
Definition sigs_a : dict string := [("1", record_signature prev_a)].

(** The same data fetched again, as another object with its fields in
    another order, and a new record. *)
Definition cur_a : pyobj := mkobj 11 [("v", JStr "a"); ("datastream_id", JInt 1)].
Definition cur_b : pyobj := mkobj 12 [("datastream_id", JInt 2); ("v", JStr "b")].

(** A changed record: [{datastream_id: 3, v: "old"}] became ["new"]. *)
Definition prev_old : pyobj := mkobj 3 [("datastream_id", JInt 3); ("v", JStr "old")].
Definition cur_new : pyobj := mkobj 13 [("datastream_id", JInt 3); ("v", JStr "new")].

(** Two current records that share the identifier 1. *)
Definition dup_a : pyobj := mkobj 21 [("datastream_id", JInt 1); ("v", JStr "a")].
Definition dup_b : pyobj := mkobj 22 [("datastream_id", JInt 1); ("v", JStr "b")].

(** Records without identifier, with the identifier 0 and with the empty
    string as identifier. *)
Definition no_id : pyobj := mkobj 30 [("v", JStr "x"); ("datastream_id", JNull)].
Definition zero_id : pyobj := mkobj 31 [("datastream_id", JInt 0); ("v", JStr "z")].
Definition empty_id : pyobj :=
  mkobj 32 [("datastream_id", JStr EmptyString); ("v", JStr "e")].

(** A thing located at [[7.5, 46.9]], and one whose first location is a
    line string with three coordinates. *)
Definition lon_7_5 : json := JFloat (75, -1)%Z.
Definition lat_46_9 : json := JFloat (469, -1)%Z.
Definition point_geometry : dict json :=
  [("type", JStr "Point"); ("coordinates", JList [lon_7_5; lat_46_9])].
Definition point_entry : dict json := [("location", JDict point_geometry)].
Definition line_entry : dict json :=
  [("location", JDict [("type", JStr "LineString");
                       ("coordinates", JList [JFloat (75, -1)%Z; JFloat (469, -1)%Z;
                                              JFloat (5, 2)%Z])])].
Definition point_thing : dict json := [("Locations", JList [JDict point_entry])].
Definition line_thing : dict json := [("Locations", JList [JDict line_entry])].

(** A thing with one located datastream, as the service sends it, and a
    datastream without identifier. *)
Definition sample_datastream : dict json :=
  [("@iot.id", JInt 7); ("name", JStr "air temperature");
   ("description", JStr EmptyString);
   ("phenomenonTime", JStr "2024-01-01T00:00:00Z/2024-02-01T00:00:00Z");
   ("unitOfMeasurement", JDict [("name", JStr "degree Celsius"); ("symbol", JStr "C")]);
   ("properties", JDict [("samplingFrequency", JStr "10min"); ("frequency", JInt 5)]);
   ("Sensor", JDict [("name", JStr "thermometer")]);
   ("ObservedProperty", JDict [("name", JStr "temperature")])].
Definition anonymous_datastream : dict json :=
  [("name", JStr "no identifier"); ("Sensor", JNull)].
Definition sample_thing : dict json :=
  [("@iot.id", JInt 1); ("name", JStr "station"); ("description", JStr "a station");
   ("Locations", JList [JDict point_entry]);
   ("Datastreams", JList [JDict sample_datastream; JDict anonymous_datastream])].
Definition bare_thing : dict json := [("@iot.id", JInt 2); ("Datastreams", JList [])].

(** A service with two pages: the first links to the second. *)
Definition sample_service (url : json) : option json :=
  match url with
  | JStr u =>
      if String.eqb u (things_url "http://host/v1.1/")
      then Some (JDict [("value", JList [JDict sample_thing]);
                        ("@iot.nextLink", JStr "http://host/page2")])
      else if String.eqb u "http://host/page2"
      then Some (JDict [("value", JList [JDict bare_thing])])
      else None
  | _ => None
  end.

(** A service whose first page links to a page it cannot deliver. *)
Definition broken_service (url : json) : option json :=
  match url with
  | JStr u =>
      if String.eqb u (things_url "http://host/v1.1/")
      then Some (JDict [("value", JList [JDict sample_thing]);
                        ("@iot.nextLink", JStr "http://host/gone")])
      else None
  | _ => None
  end.

(* ================================================================== *)
(** * Properties *)

Section HarvesterProperties.

Context {PF : PyFloat}.

(** ** Dictionaries *)

Lemma dict_get_set_same {A : Type} (key : string) (value : A) (d : dict A) :
  dict_get key (dict_set key value d) = Some value.
Proof.
  induction d as [| [k v] d IH]; simpl.
  - now rewrite String.eqb_refl.
  - destruct (String.eqb k key) eqn:E; simpl; rewrite E; auto.
Qed.

Lemma dict_get_set_other {A : Type} (key key' : string) (value : A) (d : dict A) :
  key <> key' -> dict_get key' (dict_set key value d) = dict_get key' d.
Proof.
  intros Hne. induction d as [| [k v] d IH]; simpl.
  - destruct (String.eqb key key') eqn:E; auto.
    apply String.eqb_eq in E. contradiction.
  - destruct (String.eqb k key) eqn:E; simpl.
    + apply String.eqb_eq in E. subst k.
      destruct (String.eqb key key') eqn:E'; auto.
      apply String.eqb_eq in E'. contradiction.
    + destruct (String.eqb k key'); auto.
Qed.

Lemma dict_mem_set_same {A : Type} (key : string) (value : A) (d : dict A) :
  dict_mem key (dict_set key value d) = true.
Proof. unfold dict_mem. now rewrite dict_get_set_same. Qed.

Lemma dict_mem_set_mono {A : Type} (key key' : string) (value : A) (d : dict A) :
  dict_mem key' d = true -> dict_mem key' (dict_set key value d) = true.
Proof.
  unfold dict_mem. destruct (string_dec key key') as [-> | Hne].
  - now rewrite dict_get_set_same.
  - now rewrite dict_get_set_other.
Qed.

Lemma dict_get_In {A : Type} (key : string) (value : A) (d : dict A) :
  dict_get key d = Some value -> In (key, value) d.
Proof.
  induction d as [| [k v] d IH]; simpl; [discriminate |].
  destruct (String.eqb k key) eqn:E.
  - apply String.eqb_eq in E. intros [= ->]. subst. now left.
  - intros H. right. auto.
Qed.

(** ** The previous-records index *)

Lemma index_step_key (m : dict pyobj) (record : pyobj) :
  index_step m record =
  match identity_key record with
  | Some key => dict_set key record m
  | None => m
  end.
Proof.
  unfold index_step, identity_key.
  destruct (py_get "datastream_id" (obj_fields record)); reflexivity.
Qed.

(** Whatever the index holds at a key is one of the previous records, and
    that key is its identity key. *)
Lemma index_fold_sound (records : list pyobj) :
  forall (m : dict pyobj) (known : list pyobj),
    (forall k p, dict_get k m = Some p -> In p known /\ identity_key p = Some k) ->
    forall k p, dict_get k (fold_left index_step records m) = Some p ->
                (In p known \/ In p records) /\ identity_key p = Some k.
Proof.
  induction records as [| r records IH]; simpl; intros m known Hm k p Hget.
  - destruct (Hm k p Hget). auto.
  - specialize (IH (index_step m r) (r :: known)).
    destruct (IH) with (k := k) (p := p) as [Hin Hk]; auto.
    + intros k' p'. rewrite index_step_key.
      destruct (identity_key r) as [key |] eqn:Ekey.
      * destruct (string_dec key k') as [-> | Hne].
        -- rewrite dict_get_set_same. intros [= <-]. split; [now left | auto].
        -- rewrite dict_get_set_other by auto. intros H.
           destruct (Hm _ _ H). split; [now right | auto].
      * intros H. destruct (Hm _ _ H). split; [now right | auto].
    + split; auto. simpl in Hin. intuition.
Qed.

Lemma index_previous_sound (previous_records : list pyobj) (k : string) (p : pyobj) :
  dict_get k (index_previous previous_records) = Some p ->
  In p previous_records /\ identity_key p = Some k.
Proof.
  intros H. unfold index_previous in H.
  destruct (index_fold_sound previous_records [] []) with (k := k) (p := p)
    as [[Hin | Hin] Hk]; auto.
  - simpl. discriminate.
  - contradiction.
Qed.

Lemma index_fold_mem (records : list pyobj) :
  forall (m : dict pyobj) (k : string),
    dict_mem k m = true \/ (exists r, In r records /\ identity_key r = Some k) ->
    dict_mem k (fold_left index_step records m) = true.
Proof.
  induction records as [| r records IH]; simpl; intros m k H.
  - destruct H as [H | [r [[] _]]]. exact H.
  - apply IH. rewrite index_step_key.
    destruct H as [H | [r' [[<- | Hin] Hk]]].
    + left. destruct (identity_key r); auto using dict_mem_set_mono.
    + left. rewrite Hk. apply dict_mem_set_same.
    + right. eauto.
Qed.

(** Every keyed previous record puts its key into the index. *)
Lemma index_previous_mem (previous_records : list pyobj) (r : pyobj) (k : string) :
  In r previous_records -> identity_key r = Some k ->
  dict_mem k (index_previous previous_records) = true.
Proof.
  intros Hin Hk. apply index_fold_mem. right. eauto.
Qed.

(** ** The loop and the specification's classification *)

Lemma harvest_step_classify (previous_by_id : dict pyobj)
    (previous_signatures : dict string) (st : harvest_state) (record : pyobj) :
  harvest_step previous_by_id previous_signatures st record =
  apply_verdict st record (classify previous_by_id previous_signatures record).
Proof.
  assert (Hst : forall s : harvest_state,
             s = mkstate (st_final_records s ++ [])%list (st_signatures s)
                         (st_created s + 0) (st_updated s + 0) (st_unchanged s + 0)).
  { intros [f sg c u n]; simpl. now rewrite app_nil_r, !Nat.add_0_r. }
  unfold harvest_step, classify, identity_key, apply_verdict, record_signatures,
    dict_mem, signature_eqb.
  destruct (py_get "datastream_id" (obj_fields record)) eqn:Eid; simpl;
    unfold identity_key; rewrite Eid; simpl;
    try apply Hst;
    (destruct (dict_get _ previous_signatures) as [old |]; simpl;
     [ destruct (String.eqb old (record_signature record)); simpl;
       [ destruct (dict_get _ previous_by_id); simpl | ] | ];
     rewrite ?Nat.add_0_r, ?Nat.add_1_r; reflexivity).
Qed.

Lemma harvest_loop_spec (previous_records : list pyobj)
    (previous_signatures : dict string) (records : list pyobj) :
  forall st : harvest_state,
    let vs := verdicts previous_records previous_signatures records in
    harvest_loop previous_records previous_signatures st records =
    mkstate (st_final_records st ++ emitted_all vs)%list
            (record_signatures (st_signatures st) records)
            (st_created st + count_verdicts is_created vs)
            (st_updated st + count_verdicts is_updated vs)
            (st_unchanged st + count_verdicts is_unchanged vs).
Proof.
  unfold harvest_loop, verdicts, count_verdicts, emitted_all.
  induction records as [| r records IH]; intros st; simpl.
  - destruct st; simpl. now rewrite app_nil_r, !Nat.add_0_r.
  - rewrite IH, harvest_step_classify. unfold apply_verdict; simpl.
    rewrite <- app_assoc. f_equal.
    all: destruct (classify _ _ r); simpl; lia.
Qed.


Lemma apply_incremental_harvest_spec (current_records previous_records : list pyobj)
    (previous_signatures : dict string) :
  let vs := verdicts previous_records previous_signatures current_records in
  apply_incremental_harvest current_records previous_records previous_signatures =
  (emitted_all vs, record_signatures [] current_records,
   mkstats (count_verdicts is_created vs) (count_verdicts is_updated vs)
           (count_verdicts is_unchanged vs) (length (emitted_all vs))).
Proof.
  unfold apply_incremental_harvest. rewrite harvest_loop_spec. reflexivity.
Qed.

Lemma verdicts_app (prev : list pyobj) (psigs : dict string) (l1 l2 : list pyobj) :
  verdicts prev psigs (l1 ++ l2) = (verdicts prev psigs l1 ++ verdicts prev psigs l2)%list.
Proof. apply map_app. Qed.

Lemma emitted_all_app (v1 v2 : list (pyobj * verdict)) :
  emitted_all (v1 ++ v2) = (emitted_all v1 ++ emitted_all v2)%list.
Proof. apply flat_map_app. Qed.

Lemma count_verdicts_app (p : verdict -> bool) (v1 v2 : list (pyobj * verdict)) :
  count_verdicts p (v1 ++ v2) = count_verdicts p v1 + count_verdicts p v2.
Proof. unfold count_verdicts. now rewrite filter_app, length_app. Qed.

Lemma emitted_all_length (vs : list (pyobj * verdict)) :
  length (emitted_all vs) =
  count_verdicts is_created vs + count_verdicts is_updated vs
  + count_verdicts is_unchanged vs.
Proof.
  unfold emitted_all, count_verdicts.
  induction vs as [| [r v] vs IH]; simpl; auto.
  rewrite length_app, IH. destruct v; simpl; lia.
Qed.

Lemma record_signatures_app (m : dict string) (l1 l2 : list pyobj) :
  record_signatures m (l1 ++ l2) = record_signatures (record_signatures m l1) l2.
Proof. apply fold_left_app. Qed.

Lemma record_signatures_mem_mono (l : list pyobj) :
  forall (m : dict string) (k : string),
    dict_mem k m = true -> dict_mem k (record_signatures m l) = true.
Proof.
  unfold record_signatures.
  induction l as [| r l IH]; simpl; intros m k H; auto.
  apply IH. destruct (identity_key r); auto using dict_mem_set_mono.
Qed.

(** A record whose key occurs nowhere later keeps its signature in the map. *)
Lemma record_signatures_get_fresh (l : list pyobj) :
  forall (m : dict string) (k : string),
    ~ In k (identity_keys l) ->
    dict_get k (record_signatures m l) = dict_get k m.
Proof.
  unfold record_signatures, identity_keys.
  induction l as [| r l IH]; simpl; intros m k H; auto.
  rewrite IH.
  - destruct (identity_key r) as [k' |] eqn:E; auto.
    apply dict_get_set_other. intros ->. apply H. simpl. now left.
  - intros Hin. apply H. apply in_or_app. now right.
Qed.

Lemma classify_keyless (pb : dict pyobj) (ps : dict string) (record : pyobj) :
  identity_key record = None -> classify pb ps record = Dropped.
Proof. unfold classify. now intros ->. Qed.

(** The classification decides "unchanged" by the condition of step 2d and
    then hands out the previous record stored at the key. *)
Lemma classify_unchanged_iff (prev : list pyobj) (psigs : dict string)
    (record : pyobj) (key : string) :
  identity_key record = Some key ->
  (unchanged_condition prev psigs record key <->
   exists p, classify (index_previous prev) psigs record = Unchanged p)
  /\ (forall p, classify (index_previous prev) psigs record = Unchanged p ->
                dict_get key (index_previous prev) = Some p).
Proof.
  intros Hk. unfold unchanged_condition, classify, dict_mem. rewrite Hk.
  destruct (dict_get key psigs) as [old |] eqn:Eold;
    [ destruct (String.eqb_spec old (record_signature record)) as [Esig | Esig];
      [ destruct (dict_get key (index_previous prev)) as [p |] eqn:Ep | ] | ];
    (split; [split |]).
  all: try (intros [[old' [Ho Hs]] Hm]); try (intros [p' Hp']); try (intros p' Hp').
  all: try discriminate; try congruence.
  - eauto.
  - split; eauto.
Qed.

Lemma classify_changed (prev : list pyobj) (psigs : dict string)
    (record : pyobj) (key : string) :
  identity_key record = Some key ->
  ~ unchanged_condition prev psigs record key ->
  classify (index_previous prev) psigs record =
  if dict_mem key psigs then Updated else Created.
Proof.
  intros Hk Hn.
  destruct (classify_unchanged_iff prev psigs record key Hk) as [Hiff _].
  unfold classify, dict_mem in *. rewrite Hk in *.
  destruct (dict_get key psigs) as [old |]; auto.
  destruct (String.eqb old (record_signature record)); auto.
  destruct (dict_get key (index_previous prev)) as [p |]; auto.
  exfalso. apply Hn. apply Hiff. eauto.
Qed.

(** The run on [before ++ record :: after], cut at [record]. *)
Lemma final_records_cut (before after : list pyobj) (record : pyobj)
    (prev : list pyobj) (psigs : dict string) :
  final_records_of (apply_incremental_harvest (before ++ record :: after) prev psigs) =
  (final_records_of (apply_incremental_harvest before prev psigs)
   ++ emitted (classify (index_previous prev) psigs record) record
   ++ final_records_of (apply_incremental_harvest after prev psigs))%list.
Proof.
  rewrite !apply_incremental_harvest_spec. unfold final_records_of; simpl.
  rewrite verdicts_app, emitted_all_app. simpl. reflexivity.
Qed.

Lemma nth_error_middle {A : Type} (l1 l2 : list A) (x : A) :
  nth_error (l1 ++ x :: l2) (length l1) = Some x.
Proof.
  rewrite nth_error_app2 by lia. now rewrite Nat.sub_diag.
Qed.

Lemma stats_snoc (before : list pyobj) (record : pyobj)
    (prev : list pyobj) (psigs : dict string) :
  let v := classify (index_previous prev) psigs record in
  let s0 := stats_of (apply_incremental_harvest before prev psigs) in
  let s1 := stats_of (apply_incremental_harvest (before ++ [record]) prev psigs) in
  created s1 = created s0 + (if is_created v then 1 else 0)
  /\ updated s1 = updated s0 + (if is_updated v then 1 else 0)
  /\ unchanged s1 = unchanged s0 + (if is_unchanged v then 1 else 0)
  /\ total s1 = total s0 + length (emitted v record).
Proof.
  rewrite !apply_incremental_harvest_spec. unfold stats_of; simpl.
  rewrite verdicts_app, !count_verdicts_app, emitted_all_app, length_app.
  unfold count_verdicts, emitted_all; simpl. rewrite app_nil_r.
  destruct (classify (index_previous prev) psigs record); simpl; repeat split; lia.
Qed.

(** C1. A current record with identity key [key] is classified unchanged
    exactly when a previous signature exists for [key], equals the
    record's signature and the index of the previous records holds [key];
    the record then standing at its place in [final_records] is the object
    the index holds at [key], an element of [previous_records]. *)
Theorem unchanged_iff_previous_object_emitted
    (before after : list pyobj) (record : pyobj) (key : string)
    (previous_records : list pyobj) (previous_signatures : dict string) :
  identity_key record = Some key ->
  let out0 := apply_incremental_harvest before previous_records previous_signatures in
  let out1 := apply_incremental_harvest (before ++ [record])
                previous_records previous_signatures in
  let out := apply_incremental_harvest (before ++ record :: after)
               previous_records previous_signatures in
  (unchanged (stats_of out1) = S (unchanged (stats_of out0)) <->
   unchanged_condition previous_records previous_signatures record key)
  /\ (unchanged_condition previous_records previous_signatures record key ->
      exists previous_record,
        dict_get key (index_previous previous_records) = Some previous_record
        /\ In previous_record previous_records
        /\ nth_error (final_records_of out) (length (final_records_of out0))
           = Some previous_record).
Proof.
  intros Hk out0 out1 out.
  destruct (classify_unchanged_iff previous_records previous_signatures record key Hk)
    as [Hiff Hget].
  destruct (stats_snoc before record previous_records previous_signatures)
    as (_ & _ & Hun & _).
  fold out0 out1 in Hun.
  split.
  - rewrite Hun, Hiff. split.
    + destruct (classify _ _ record) eqn:E; simpl; try lia. eauto.
    + intros [p ->]. simpl. lia.
  - intros Hc. apply Hiff in Hc. destruct Hc as [p Hp].
    exists p. split; [now apply Hget |].
    split; [eapply index_previous_sound; now apply Hget |].
    unfold out, out0. rewrite final_records_cut, Hp. simpl.
    apply nth_error_middle.
Qed.

(** C3. A keyed current record that is not unchanged is emitted itself and
    counted updated when its key is a key of [previous_signatures], created
    otherwise; with an empty signature map every keyed record is counted
    created, and a record whose signature differs from the previous one is
    counted updated. *)
Theorem changed_record_updated_or_created
    (before after : list pyobj) (record : pyobj) (key : string)
    (previous_records : list pyobj) (previous_signatures : dict string) :
  identity_key record = Some key ->
  let out0 := apply_incremental_harvest before previous_records previous_signatures in
  let out1 := apply_incremental_harvest (before ++ [record])
                previous_records previous_signatures in
  let out := apply_incremental_harvest (before ++ record :: after)
               previous_records previous_signatures in
  let s0 := stats_of out0 in
  let s1 := stats_of out1 in
  (~ unchanged_condition previous_records previous_signatures record key ->
     nth_error (final_records_of out) (length (final_records_of out0)) = Some record
     /\ unchanged s1 = unchanged s0
     /\ (dict_mem key previous_signatures = true ->
         updated s1 = S (updated s0) /\ created s1 = created s0)
     /\ (dict_mem key previous_signatures = false ->
         created s1 = S (created s0) /\ updated s1 = updated s0))
  /\ (previous_signatures = [] ->
      created (stats_of out) = length (keyed (before ++ record :: after))
      /\ updated (stats_of out) = 0 /\ unchanged (stats_of out) = 0)
  /\ (forall old, dict_get key previous_signatures = Some old ->
                  old <> record_signature record ->
                  updated s1 = S (updated s0) /\ created s1 = created s0
                  /\ unchanged s1 = unchanged s0).
Proof.
  intros Hk out0 out1 out s0 s1.
  destruct (stats_snoc before record previous_records previous_signatures)
    as (Hcr & Hup & Hun & _).
  fold out0 out1 s0 s1 in Hcr, Hup, Hun.
  assert (Hchanged :
            ~ unchanged_condition previous_records previous_signatures record key ->
            classify (index_previous previous_records) previous_signatures record =
            if dict_mem key previous_signatures then Updated else Created)
    by (now apply classify_changed).
  split; [| split].
  - intros Hn. specialize (Hchanged Hn). rewrite Hchanged in Hcr, Hup, Hun.
    split.
    + unfold out, out0. rewrite final_records_cut, Hchanged.
      destruct (dict_mem key previous_signatures); simpl; apply nth_error_middle.
    + destruct (dict_mem key previous_signatures); simpl in *;
        repeat split; try discriminate; lia.
  - intros ->. unfold out. rewrite apply_incremental_harvest_spec.
    unfold stats_of; simpl.
    generalize (before ++ record :: after)%list. intros l.
    unfold verdicts, count_verdicts, keyed, classify.
    induction l as [| r l (IH1 & IH2 & IH3)]; simpl; auto.
    destruct (identity_key r); simpl; auto.
  - intros old Hold Hne.
    assert (Hn : ~ unchanged_condition previous_records previous_signatures record key).
    { intros [[old' [Ho ->]] _]. rewrite Hold in Ho. now injection Ho. }
    specialize (Hchanged Hn). rewrite Hchanged in Hcr, Hup, Hun.
    unfold dict_mem in *. rewrite Hold in *. simpl in *. lia.
Qed.

(** The stats partition holds for every call. *)
Lemma partition_every_call (current_records previous_records : list pyobj)
    (previous_signatures : dict string) :
  let out := apply_incremental_harvest current_records previous_records
               previous_signatures in
  created (stats_of out) + updated (stats_of out) + unchanged (stats_of out)
  = total (stats_of out)
  /\ total (stats_of out) = length (final_records_of out).
Proof.
  intros out. unfold out. rewrite apply_incremental_harvest_spec.
  unfold stats_of, final_records_of. cbn [fst snd created updated unchanged total].
  rewrite emitted_all_length. auto.
Qed.

(** C4. With pairwise distinct identity keys in [current_records], the
    counters add up to [total], which is the length of [final_records]. *)
Theorem stats_partition (current_records previous_records : list pyobj)
    (previous_signatures : dict string) :
  NoDup (identity_keys current_records) ->
  let out := apply_incremental_harvest current_records previous_records
               previous_signatures in
  created (stats_of out) + updated (stats_of out) + unchanged (stats_of out)
  = total (stats_of out)
  /\ total (stats_of out) = length (final_records_of out).
Proof.
  intros _. apply partition_every_call.
Qed.

(** Every emitted record has an identity key. *)
Lemma final_records_keyed (current_records previous_records : list pyobj)
    (previous_signatures : dict string) (e : pyobj) :
  In e (final_records_of (apply_incremental_harvest current_records previous_records
                            previous_signatures)) ->
  exists k, identity_key e = Some k.
Proof.
  rewrite apply_incremental_harvest_spec. unfold final_records_of; simpl.
  unfold emitted_all, verdicts. rewrite flat_map_concat_map, map_map; simpl.
  rewrite <- flat_map_concat_map. rewrite in_flat_map.
  intros [r [_ Hin]].
  destruct (identity_key r) as [k |] eqn:Hk.
  - destruct (classify_unchanged_iff previous_records previous_signatures r k Hk)
      as [_ Hget].
    destruct (classify _ _ r) eqn:E; simpl in Hin; try contradiction.
    + destruct Hin as [<- | []]. specialize (Hget _ eq_refl).
      apply index_previous_sound in Hget. destruct Hget. eauto.
    + destruct Hin as [<- | []]. eauto.
    + destruct Hin as [<- | []]. eauto.
  - rewrite classify_keyless in Hin by auto. contradiction.
Qed.

(** C5. A current record whose [datastream_id] is absent contributes
    nothing: the three outputs are those of the call without it, and it is
    not among the final records. *)
Theorem key_drop (before after : list pyobj) (record : pyobj)
    (previous_records : list pyobj) (previous_signatures : dict string) :
  py_get "datastream_id" (obj_fields record) = JNull ->
  apply_incremental_harvest (before ++ record :: after) previous_records
    previous_signatures
  = apply_incremental_harvest (before ++ after) previous_records previous_signatures
  /\ ~ In record (final_records_of
                    (apply_incremental_harvest (before ++ record :: after)
                       previous_records previous_signatures))
  /\ signatures_of (apply_incremental_harvest (before ++ [record]) previous_records
                      previous_signatures)
     = signatures_of (apply_incremental_harvest before previous_records
                        previous_signatures)
  /\ stats_of (apply_incremental_harvest (before ++ [record]) previous_records
                 previous_signatures)
     = stats_of (apply_incremental_harvest before previous_records
                   previous_signatures).
Proof.
  intros Hnone.
  assert (Hk : identity_key record = None) by (unfold identity_key; now rewrite Hnone).
  assert (Hdrop : forall l1 l2,
             apply_incremental_harvest (l1 ++ record :: l2) previous_records
               previous_signatures
             = apply_incremental_harvest (l1 ++ l2) previous_records
                 previous_signatures).
  { intros l1 l2. rewrite !apply_incremental_harvest_spec; simpl.
    rewrite !verdicts_app, !record_signatures_app. simpl.
    rewrite !emitted_all_app, !count_verdicts_app.
    unfold count_verdicts, emitted_all, record_signatures; simpl.
    rewrite classify_keyless, Hk by auto. reflexivity. }
  split; [apply Hdrop |].
  split.
  - intros Hin. apply final_records_keyed in Hin. destruct Hin as [k Hin].
    congruence.
  - rewrite (Hdrop before []), app_nil_r. auto.
Qed.

(** The final records, one for one against the keyed current records. *)
Lemma final_records_pointwise (current_records prev : list pyobj) (psigs : dict string) :
  Forall2 (fun e record => identity_key e = identity_key record
                           /\ (e = record \/ In e prev))
          (final_records_of (apply_incremental_harvest current_records prev psigs))
          (keyed current_records).
Proof.
  rewrite apply_incremental_harvest_spec.
  unfold final_records_of; simpl. unfold emitted_all, verdicts, keyed.
  induction current_records as [| r l IH]; simpl; [constructor |].
  destruct (identity_key r) as [k |] eqn:Hk.
  - destruct (classify_unchanged_iff prev psigs r k Hk) as [_ Hget].
    destruct (classify _ _ r) eqn:E; simpl.
    + unfold classify in E. rewrite Hk in E.
      destruct (dict_get k psigs) as [old |]; [| discriminate].
      destruct (String.eqb old _); [| discriminate].
      destruct (dict_get k (index_previous prev)); discriminate.
    + specialize (Hget _ eq_refl). apply index_previous_sound in Hget.
      constructor; auto. destruct Hget. split; [congruence | now right].
    + constructor; auto.
    + constructor; auto.
  - rewrite classify_keyless by auto. simpl. exact IH.
Qed.

(** C6. The final records follow the keyed current records one for one, in
    their order: the i-th emitted record has the identity key of the i-th
    keyed current record, and is that record or one of the previous
    records.  The sequence of keys is the same whatever the previous
    state. *)
Theorem final_records_follow_current_order
    (current_records previous_records : list pyobj)
    (previous_signatures : dict string) :
  Forall2 (fun e record => identity_key e = identity_key record
                           /\ (e = record \/ In e previous_records))
          (final_records_of (apply_incremental_harvest current_records
                               previous_records previous_signatures))
          (keyed current_records)
  /\ forall (previous_records' : list pyobj) (previous_signatures' : dict string),
       map identity_key
           (final_records_of (apply_incremental_harvest current_records
                                previous_records' previous_signatures'))
       = map identity_key (keyed current_records).
Proof.
  split; [apply final_records_pointwise |].
  intros prev' psigs'.
  generalize (final_records_pointwise current_records prev' psigs').
  generalize (final_records_of (apply_incremental_harvest current_records
                                  prev' psigs')) (keyed current_records).
  intros es rs H.
  induction H as [| e r es rs [He _] _ IH]; simpl; [reflexivity |].
  now rewrite He, IH.
Qed.

(** ** Idempotence *)

Lemma present_id_keyed (record : pyobj) :
  py_get "datastream_id" (obj_fields record) <> JNull ->
  identity_key record
  = Some (py_str (py_get "datastream_id" (obj_fields record))).
Proof.
  unfold identity_key.
  destruct (py_get "datastream_id" (obj_fields record)); auto. contradiction.
Qed.

Lemma identity_keys_app (l1 l2 : list pyobj) :
  identity_keys (l1 ++ l2) = (identity_keys l1 ++ identity_keys l2)%list.
Proof. apply flat_map_app. Qed.

(** With distinct keys, the signature map of a run holds, at the key of
    every current record, the signature of that record. *)
Lemma record_signatures_get (records : list pyobj) (m : dict string)
    (r : pyobj) (k : string) :
  NoDup (identity_keys records) -> In r records -> identity_key r = Some k ->
  dict_get k (record_signatures m records) = Some (record_signature r).
Proof.
  intros Hnd Hin Hk. apply in_split in Hin. destruct Hin as (l1 & l2 & ->).
  rewrite identity_keys_app in Hnd. simpl in Hnd. rewrite Hk in Hnd. simpl in Hnd.
  apply NoDup_remove_2 in Hnd.
  replace (l1 ++ r :: l2)%list with ((l1 ++ [r]) ++ l2)%list
    by (now rewrite <- app_assoc).
  rewrite record_signatures_app, record_signatures_get_fresh.
  - rewrite record_signatures_app. unfold record_signatures at 1. simpl.
    rewrite Hk. apply dict_get_set_same.
  - intros H. apply Hnd. apply in_or_app. now right.
Qed.

Lemma Forall2_right_witness {A B : Type} (R : A -> B -> Prop) (l1 : list A)
    (l2 : list B) :
  Forall2 R l1 l2 -> forall b, In b l2 -> exists a, In a l1 /\ R a b.
Proof.
  induction 1 as [| a b l1 l2 HR _ IH]; simpl; [contradiction |].
  intros b' [<- | Hin].
  - exists a. auto.
  - destruct (IH _ Hin) as [a' [? ?]]. exists a'. auto.
Qed.

(** After a run, every keyed current record finds its key in the index
    built from the final records. *)
Lemma final_records_index_mem (current_records prev : list pyobj)
    (psigs : dict string) (r : pyobj) (k : string) :
  In r current_records -> identity_key r = Some k ->
  dict_mem k (index_previous
                (final_records_of (apply_incremental_harvest current_records
                                     prev psigs))) = true.
Proof.
  intros Hin Hk.
  assert (Hkeyed : In r (keyed current_records)).
  { unfold keyed. apply filter_In. rewrite Hk. auto. }
  destruct (Forall2_right_witness _ _ _
              (final_records_pointwise current_records prev psigs) r Hkeyed)
    as [e [He [Hke _]]].
  apply index_previous_mem with (r := e); congruence.
Qed.

Lemma count_all_unchanged (vs : list (pyobj * verdict)) :
  Forall (fun rv => is_unchanged (snd rv) = true) vs ->
  count_verdicts is_unchanged vs = length vs
  /\ count_verdicts is_created vs = 0
  /\ count_verdicts is_updated vs = 0.
Proof.
  unfold count_verdicts.
  induction 1 as [| [r v] vs Hv _ (IH1 & IH2 & IH3)]; simpl; auto.
  simpl in Hv. destruct v; try discriminate. simpl. auto.
Qed.

(** C2, amended. When every current record has a [datastream_id] and the
    identity keys are pairwise distinct, a second run on the same current
    records, with the final records and the signatures of the first run as
    previous state, counts every record unchanged. *)
Theorem idempotent_on_distinct_keys
    (current_records previous_records : list pyobj)
    (previous_signatures : dict string) :
  Forall (fun record => py_get "datastream_id" (obj_fields record) <> JNull)
         current_records ->
  NoDup (identity_keys current_records) ->
  let out1 := apply_incremental_harvest current_records previous_records
                previous_signatures in
  let out2 := apply_incremental_harvest current_records (final_records_of out1)
                (signatures_of out1) in
  updated (stats_of out2) = 0
  /\ created (stats_of out2) = 0
  /\ unchanged (stats_of out2) = length current_records.
Proof.
  intros Hall Hnd out1 out2.
  assert (Hv : Forall (fun rv => is_unchanged (snd rv) = true)
                      (verdicts (final_records_of out1) (signatures_of out1)
                                current_records)).
  { unfold verdicts. rewrite Forall_map, Forall_forall. intros r Hin. simpl.
    rewrite Forall_forall in Hall. specialize (Hall r Hin).
    pose proof (present_id_keyed r Hall) as Hk.
    pose proof (final_records_index_mem current_records previous_records
                  previous_signatures r _ Hin Hk) as Hmem.
    fold out1 in Hmem. unfold classify. rewrite Hk.
    unfold out1 at 1. rewrite apply_incremental_harvest_spec.
    unfold signatures_of; simpl.
    rewrite (record_signatures_get current_records [] r _ Hnd Hin Hk).
    rewrite String.eqb_refl. unfold dict_mem in Hmem.
    destruct (dict_get _ (index_previous (final_records_of out1)));
      [reflexivity | discriminate]. }
  apply count_all_unchanged in Hv. destruct Hv as (H1 & H2 & H3).
  unfold out2. rewrite apply_incremental_harvest_spec. unfold stats_of; simpl.
  rewrite H1, H2, H3. unfold verdicts. now rewrite length_map.
Qed.

(** ** Present identifiers *)

Lemma stac_features_app (c root : string) (l1 l2 : list pyobj) :
  stac_features c root (l1 ++ l2)
  = (stac_features c root l1 ++ stac_features c root l2)%list.
Proof. apply flat_map_app. Qed.

Lemma dcat_datasets_app (l1 l2 : list pyobj) :
  dcat_datasets (l1 ++ l2) = (dcat_datasets l1 ++ dcat_datasets l2)%list.
Proof. apply flat_map_app. Qed.

(** C10. Only [None] drops a record.  A current record whose
    [datastream_id] is anything else, the integer 0 and the empty string
    included, is keyed by the string form of that value: one record is
    emitted at its place (the record, or the previous object of that key when
    the record is unchanged), its signature is recorded, one counter and the
    total go up by one; the two projectors write an entry for it as well,
    and leave out only the records whose [datastream_id] is [None]. *)
Theorem present_identifier_retained
    (before after : list pyobj) (record : pyobj) (datastream_id : json)
    (previous_records : list pyobj) (previous_signatures : dict string)
    (collection_id root : string) :
  py_get "datastream_id" (obj_fields record) = datastream_id ->
  datastream_id <> JNull ->
  let key := py_str datastream_id in
  let out0 := apply_incremental_harvest before previous_records previous_signatures in
  let out1 := apply_incremental_harvest (before ++ [record])
                previous_records previous_signatures in
  let out := apply_incremental_harvest (before ++ record :: after)
               previous_records previous_signatures in
  let s0 := stats_of out0 in
  let s1 := stats_of out1 in
  identity_key record = Some key
  /\ (exists e,
        nth_error (final_records_of out) (length (final_records_of out0)) = Some e
        /\ (e = record
            \/ (dict_get key (index_previous previous_records) = Some e
                /\ unchanged_condition previous_records previous_signatures
                     record key)))
  /\ dict_get key (signatures_of out1) = Some (record_signature record)
  /\ dict_mem key (signatures_of out) = true
  /\ total s1 = S (total s0)
  /\ created s1 + updated s1 + unchanged s1
     = S (created s0 + updated s0 + unchanged s0)
  /\ stac_features collection_id root (before ++ record :: after)
     = (stac_features collection_id root before
        ++ stac_feature collection_id root record
        :: stac_features collection_id root after)%list
  /\ dcat_datasets (before ++ record :: after)
     = (dcat_datasets before ++ dcat_dataset record :: dcat_datasets after)%list
  /\ item_id_of record = "datastream-" ++ key
  /\ (forall absent : pyobj,
        py_get "datastream_id" (obj_fields absent) = JNull ->
        stac_features collection_id root [absent] = []
        /\ dcat_datasets [absent] = []).
Proof.
  intros Hid Hpresent key out0 out1 out s0 s1.
  assert (Hk : identity_key record = Some key).
  { unfold key. rewrite <- Hid. apply present_id_keyed. now rewrite Hid. }
  destruct (classify_unchanged_iff previous_records previous_signatures record key Hk)
    as [Hiff Hget].
  destruct (stats_snoc before record previous_records previous_signatures)
    as (Hcr & Hup & Hun & Htot).
  fold out0 out1 s0 s1 in Hcr, Hup, Hun, Htot.
  assert (Hsig : signatures_of out1
                 = dict_set key (record_signature record) (signatures_of out0)).
  { unfold out1, out0. rewrite !apply_incremental_harvest_spec.
    unfold signatures_of; simpl. rewrite record_signatures_app.
    unfold record_signatures at 1. simpl. now rewrite Hk. }
  split; [exact Hk |]. split; [| split; [| split; [| split; [| split]]]].
  - unfold out, out0. rewrite final_records_cut.
    destruct (classify _ _ record) as [| p | |] eqn:E; simpl.
    + unfold classify in E. rewrite Hk in E.
      destruct (dict_get key previous_signatures) as [old |]; [| discriminate].
      destruct (String.eqb old _); [| discriminate].
      destruct (dict_get key (index_previous previous_records)); discriminate.
    + exists p. split; [apply nth_error_middle |]. right.
      split; [now apply Hget |]. apply Hiff. eauto.
    + exists record. split; [apply nth_error_middle | now left].
    + exists record. split; [apply nth_error_middle | now left].
  - rewrite Hsig. apply dict_get_set_same.
  - unfold out. rewrite apply_incremental_harvest_spec. unfold signatures_of; simpl.
    replace (before ++ record :: after)%list with ((before ++ [record]) ++ after)%list
      by (now rewrite <- app_assoc).
    rewrite record_signatures_app. apply record_signatures_mem_mono.
    rewrite record_signatures_app. unfold record_signatures at 1. simpl.
    rewrite Hk. apply dict_mem_set_same.
  - rewrite Htot. destruct (classify _ _ record) eqn:E; simpl; try lia.
    unfold classify in E. rewrite Hk in E.
    destruct (dict_get key previous_signatures) as [old |]; [| discriminate].
    destruct (String.eqb old _); [| discriminate].
    destruct (dict_get key (index_previous previous_records)); discriminate.
  - rewrite Hcr, Hup, Hun. destruct (classify _ _ record) eqn:E; simpl; try lia.
    unfold classify in E. rewrite Hk in E.
    destruct (dict_get key previous_signatures) as [old |]; [| discriminate].
    destruct (String.eqb old _); [| discriminate].
    destruct (dict_get key (index_previous previous_records)); discriminate.
  - split; [| split].
    + rewrite stac_features_app. f_equal. unfold stac_features at 1. simpl.
      rewrite Hid. destruct datastream_id; auto. contradiction.
    + rewrite dcat_datasets_app. f_equal. unfold dcat_datasets at 1. simpl.
      rewrite Hid. destruct datastream_id; auto. contradiction.
    + split; [unfold item_id_of, key; now rewrite Hid |].
      intros absent Habsent. unfold stac_features, dcat_datasets. simpl.
      now rewrite Habsent.
Qed.

(** ** The location rule *)

Lemma extract_location_no_locations (thing : dict json) :
  py_truthy (py_get "Locations" thing) = false ->
  _extract_location thing = Ok JNull.
Proof.
  intros H. unfold _extract_location, py_or. rewrite H. reflexivity.
Qed.

(** The function on a thing whose first location entry is a dictionary. *)
Lemma extract_location_first (thing first : dict json) (rest : list json) :
  py_get "Locations" thing = JList (JDict first :: rest) ->
  _extract_location thing =
  match py_get "location" first with
  | JDict location_dict =>
      match py_get "coordinates" location_dict with
      | JList (c0 :: c1 :: _) =>
          if is_number c0 && is_number c1
          then lat <- py_float c1 ;;
               lon <- py_float c0 ;;
               Ok (JDict [("lat", JFloat lat); ("lon", JFloat lon)])
          else Ok JNull
      | _ => Ok JNull
      end
  | _ => Ok JNull
  end.
Proof.
  intros H. unfold _extract_location, py_or. rewrite H. reflexivity.
Qed.

Lemma coordinate_pair_unique (entry : dict json) (c0 c1 c0' c1' : json) :
  has_coordinate_pair entry c0 c1 -> has_coordinate_pair entry c0' c1' ->
  c0 = c0' /\ c1 = c1'.
Proof.
  intros (g & more & Hl & Hc & _) (g' & more' & Hl' & Hc' & _).
  rewrite Hl in Hl'. injection Hl' as <-.
  rewrite Hc in Hc'. injection Hc' as <- <- _. auto.
Qed.

(** The two ways the function goes on a first entry that is a dictionary:
    with a coordinate pair it converts the two numbers, without one it
    returns [None]. *)
Lemma extract_location_cases (thing first : dict json) (rest : list json) :
  py_get "Locations" thing = JList (JDict first :: rest) ->
  (exists c0 c1,
     has_coordinate_pair first c0 c1
     /\ _extract_location thing
        = (lat <- py_float c1 ;;
           lon <- py_float c0 ;;
           Ok (JDict [("lat", JFloat lat); ("lon", JFloat lon)])))
  \/ ((forall c0 c1, ~ has_coordinate_pair first c0 c1)
      /\ _extract_location thing = Ok JNull).
Proof.
  intros H. rewrite (extract_location_first thing first rest H). unfold py_get.
  destruct (dict_get "location" first) as [[| | | | | | geometry] |] eqn:Hloc;
    try (right; split; [intros c0 c1 (g & more & Hl & _); congruence | reflexivity]).
  destruct (dict_get "coordinates" geometry) as [[| | | | | l |] |] eqn:Hco;
    try (right; split;
         [intros c0 c1 (g & more & Hl & Hc & _);
          rewrite Hloc in Hl; injection Hl as <-; congruence
         | reflexivity]).
  destruct l as [| c0 [| c1 more]];
    try (right; split;
         [intros c0' c1' (g & more' & Hl & Hc & _);
          rewrite Hloc in Hl; injection Hl as <-; congruence
         | reflexivity]).
  destruct (is_number c0) eqn:Hn0; destruct (is_number c1) eqn:Hn1; simpl;
    try (right; split;
         [intros c0' c1' (g & more' & Hl & Hc & Hn0' & Hn1');
          rewrite Hloc in Hl; injection Hl as <-;
          rewrite Hco in Hc; injection Hc as <- <- _; congruence
         | reflexivity]).
  left. exists c0, c1. split; [| reflexivity].
  exists geometry, more. auto.
Qed.

(** C8, amended. For a thing whose [Locations] is a list with a dictionary
    as first entry, the location is read from that entry alone.  It is
    present exactly when the entry's [location] is a dictionary whose
    [coordinates] is a list that starts with two numbers, whatever the
    geometry type and however many coordinates follow, and [float] succeeds
    on both, as it does on floats; it is then
    [{lat: float(coordinates[1]), lon: float(coordinates[0])}].  It is
    [None] exactly when the entry carries no such pair.  A thing with no
    locations has none. *)
Theorem location_rule (thing first : dict json) (rest : list json) :
  py_get "Locations" thing = JList (JDict first :: rest) ->
  _extract_location thing = _extract_location [("Locations", JList [JDict first])]
  /\ (forall lat lon,
        _extract_location thing
        = Ok (JDict [("lat", JFloat lat); ("lon", JFloat lon)])
        <-> exists c0 c1,
              has_coordinate_pair first c0 c1
              /\ py_float c1 = Ok lat /\ py_float c0 = Ok lon)
  /\ (_extract_location thing = Ok JNull
      <-> forall c0 c1, ~ has_coordinate_pair first c0 c1)
  /\ (forall location,
        _extract_location thing = Ok location ->
        location = JNull
        \/ exists lat lon c0 c1,
             location = JDict [("lat", JFloat lat); ("lon", JFloat lon)]
             /\ has_coordinate_pair first c0 c1
             /\ py_float c1 = Ok lat /\ py_float c0 = Ok lon)
  /\ (forall f0 f1,
        has_coordinate_pair first (JFloat f0) (JFloat f1) ->
        _extract_location thing
        = Ok (JDict [("lat", JFloat f1); ("lon", JFloat f0)]))
  /\ (forall thing' : dict json,
        py_truthy (py_get "Locations" thing') = false ->
        _extract_location thing' = Ok JNull).
Proof.
  intros H.
  split.
  { rewrite (extract_location_first thing first rest H).
    now rewrite (extract_location_first [("Locations", JList [JDict first])]
                   first []) by reflexivity. }
  assert (Hlast : forall thing' : dict json,
             py_truthy (py_get "Locations" thing') = false ->
             _extract_location thing' = Ok JNull)
    by apply extract_location_no_locations.
  destruct (extract_location_cases thing first rest H)
    as [(c0 & c1 & Hpair & E) | [Hno E]]; rewrite E.
  - split; [| split; [| split; [| split; [| exact Hlast]]]].
    + intros lat lon. split.
      * destruct (py_float c1) as [lat' |] eqn:E1; simpl; [| discriminate].
        destruct (py_float c0) as [lon' |] eqn:E0; simpl; [| discriminate].
        intros [= <- <-]. exists c0, c1. auto.
      * intros (c0' & c1' & Hpair' & E1 & E0).
        destruct (coordinate_pair_unique _ _ _ _ _ Hpair Hpair') as [-> ->].
        now rewrite E1, E0.
    + split.
      * destruct (py_float c1); simpl; [| discriminate].
        destruct (py_float c0); simpl; discriminate.
      * intros Hno. now contradiction (Hno c0 c1).
    + intros location.
      destruct (py_float c1) as [lat |] eqn:E1; simpl; [| discriminate].
      destruct (py_float c0) as [lon |] eqn:E0; simpl; [| discriminate].
      intros [= <-]. right. exists lat, lon, c0, c1. auto.
    + intros f0 f1 Hpair'.
      destruct (coordinate_pair_unique _ _ _ _ _ Hpair Hpair') as [-> ->].
      reflexivity.
  - split; [| split; [| split; [| split; [| exact Hlast]]]].
    + intros lat lon. split; [discriminate |].
      intros (c0 & c1 & Hpair & _). now contradiction (Hno c0 c1).
    + split; auto.
    + intros location [= <-]. now left.
    + intros f0 f1 Hpair. now contradiction (Hno _ _ Hpair).
Qed.

(** A coordinate that [float] cannot convert makes the call raise what
    [float] raises. *)
Lemma extract_location_conversion_raises (thing first : dict json)
    (rest : list json) (c0 c1 : json) (e : pyexc) :
  py_get "Locations" thing = JList (JDict first :: rest) ->
  has_coordinate_pair first c0 c1 ->
  py_float c1 = Raise e
  \/ ((exists lat, py_float c1 = Ok lat) /\ py_float c0 = Raise e) ->
  _extract_location thing = Raise e.
Proof.
  intros H Hpair Hraise.
  destruct (extract_location_cases thing first rest H)
    as [(c0' & c1' & Hpair' & E) | [Hno _]].
  - destruct (coordinate_pair_unique _ _ _ _ _ Hpair Hpair') as [<- <-].
    rewrite E. destruct Hraise as [-> | [[lat ->] ->]]; reflexivity.
  - now contradiction (Hno c0 c1).
Qed.

(** ** The persisted state *)

(** X23. The cases the loader falls back on: a missing or unreadable
    file, a file that is not JSON, a records file that holds something else
    than a list, a [signatures] entry that is not a mapping. *)
Lemma load_previous_state_fallback (records_file state_file : file_state)
    (payload : dict json) :
  (records_file = FileMissing \/ records_file = FileUnreadable
   \/ records_file = FileInvalidJson
   \/ exists v, records_file = FileJson v /\ forall l, v <> JList l) ->
  (state_file = FileMissing \/ state_file = FileUnreadable
   \/ state_file = FileInvalidJson
   \/ (state_file = FileJson (JDict payload)
       /\ forall d, py_get_default "signatures" (JDict []) payload <> JDict d)) ->
  load_previous_state records_file state_file = Ok ([], []).
Proof.
  intros Hr Hs. unfold load_previous_state.
  assert (Hrec : exists v, load_json_file records_file (JList []) = Ok v
                           /\ match v with JList l => l | _ => [] end = []).
  { destruct Hr as [-> | [-> | [-> | [v [-> Hv]]]]]; simpl; eauto.
    exists v. split; auto. destruct v; auto. now contradiction (Hv l). }
  destruct Hrec as [v [-> Hv]]. simpl. rewrite Hv.
  destruct Hs as [-> | [-> | [-> | [-> Hp]]]]; simpl; auto.
  destruct (py_get_default "signatures" (JDict []) payload); auto.
  now contradiction (Hp d).
Qed.

(** C9. A state file that holds valid JSON which is not an object, here the
    empty list, makes the loading of the previous state raise
    [AttributeError]: nothing falls back to the empty signature map. *)
Theorem state_file_not_an_object_raises :
  load_previous_state FileMissing (FileJson (JList [])) = Raise AttributeError.
Proof. reflexivity. Qed.

(** X24. Any state document that is not an object raises
    [AttributeError]; a state file that is not UTF-8 raises
    [UnicodeDecodeError]; a records file that is not UTF-8 raises
    [UnicodeDecodeError] whatever the state file holds. *)
Lemma state_file_crashes (records_file : file_state) (content : json) :
  (forall d, content <> JDict d) ->
  records_file <> FileNotUtf8 ->
  load_previous_state records_file (FileJson content) = Raise AttributeError
  /\ load_previous_state records_file FileNotUtf8 = Raise UnicodeDecodeError
  /\ forall state_file : file_state,
       load_previous_state FileNotUtf8 state_file = Raise UnicodeDecodeError.
Proof.
  intros Hc Hr. unfold load_previous_state.
  split; [| split; [| reflexivity]].
  - destruct records_file; simpl; try contradiction;
      (destruct content; simpl; auto; now contradiction (Hc d)).
  - destruct records_file; simpl; try contradiction; reflexivity.
Qed.

(** ** Sorting the items of a dictionary *)

Lemma string_leb_iff (a b : string) :
  String.leb a b = true <-> a = b \/ String_as_OT.lt a b.
Proof.
  unfold String.leb. destruct (String.compare a b) eqn:E.
  - split; auto. intros _. left. now apply String_as_OT.cmp_eq.
  - split; auto. intros _. right. now apply String_as_OT.cmp_lt.
  - split; [discriminate |]. intros [-> | H].
    + assert (String.compare b b = Eq) by (now apply String_as_OT.cmp_eq).
      congruence.
    + apply String_as_OT.cmp_lt in H. unfold String_as_OT.cmp in H. congruence.
Qed.

Lemma string_leb_trans (a b c : string) :
  String.leb a b = true -> String.leb b c = true -> String.leb a c = true.
Proof.
  rewrite !string_leb_iff. intros [-> | H1] [-> | H2]; auto.
  right. eapply String_as_OT.lt_trans; eauto.
Qed.

Lemma insert_item_perm {A : Type} (x : string * A) (l : dict A) :
  Permutation (insert_item x l) (x :: l).
Proof.
  induction l as [| y l IH]; simpl; auto.
  destruct (String.leb (fst x) (fst y)); auto.
  rewrite IH. apply perm_swap.
Qed.

Lemma sort_items_perm {A : Type} (l : dict A) : Permutation (sort_items l) l.
Proof.
  induction l as [| x l IH]; simpl; auto.
  rewrite insert_item_perm. now constructor.
Qed.

Lemma insert_item_sorted {A : Type} (x : string * A) (l : dict A) :
  StronglySorted key_le l -> StronglySorted key_le (insert_item x l).
Proof.
  induction 1 as [| y l Hs IH Hall]; simpl.
  - repeat constructor.
  - destruct (String.leb (fst x) (fst y)) eqn:E.
    + constructor; [now constructor |]. constructor; [exact E |].
      eapply Forall_impl; [| exact Hall].
      intros z Hz. unfold key_le in *. eapply string_leb_trans; eauto.
    + constructor; auto.
      apply (Permutation_Forall (x := x :: l)).
      * symmetry. apply insert_item_perm.
      * constructor; auto. unfold key_le.
        destruct (String.leb_total (fst x) (fst y)); congruence.
Qed.

Lemma sort_items_sorted {A : Type} (l : dict A) : StronglySorted key_le (sort_items l).
Proof.
  induction l; simpl; [constructor | now apply insert_item_sorted].
Qed.

(** Two sorted lists with the same items, no key twice, are the same
    list. *)
Lemma sorted_items_unique {A : Type} (l1 : dict A) :
  forall l2 : dict A,
    StronglySorted key_le l1 -> StronglySorted key_le l2 ->
    Permutation l1 l2 -> NoDup (map fst l1) -> l1 = l2.
Proof.
  induction l1 as [| a l1 IH]; intros l2 S1 S2 Hp Hnd.
  - apply Permutation_nil in Hp. now subst.
  - destruct l2 as [| b l2].
    { symmetry in Hp. apply Permutation_nil in Hp. discriminate. }
    apply StronglySorted_inv in S1. destruct S1 as [S1 Ha].
    apply StronglySorted_inv in S2. destruct S2 as [S2 Hb].
    rewrite Forall_forall in Ha, Hb.
    assert (Hab : a = b).
    { assert (Hina : In a (b :: l2)) by (eapply Permutation_in; eauto; now left).
      assert (Hinb : In b (a :: l1)).
      { eapply Permutation_in; [symmetry; eauto | now left]. }
      destruct Hina as [-> | Hina]; auto.
      destruct Hinb as [-> | Hinb]; auto.
      assert (Hk : fst a = fst b).
      { apply String.leb_antisym; [apply (Ha _ Hinb) | apply (Hb _ Hina)]. }
      simpl in Hnd. apply NoDup_cons_iff in Hnd. destruct Hnd as [Hnd _].
      exfalso. apply Hnd. rewrite Hk. now apply in_map. }
    subst b. f_equal. apply IH; auto.
    + eapply Permutation_cons_inv; eauto.
    + simpl in Hnd. now apply NoDup_cons_iff in Hnd.
Qed.

Lemma sort_items_perm_eq {A : Type} (l1 l2 : dict A) :
  NoDup (map fst l1) -> Permutation l1 l2 -> sort_items l1 = sort_items l2.
Proof.
  intros Hnd Hp. apply sorted_items_unique; auto using sort_items_sorted.
  - rewrite !sort_items_perm. exact Hp.
  - eapply Permutation_NoDup; [| exact Hnd].
    apply Permutation_map. symmetry. apply sort_items_perm.
Qed.

(** ** Dictionaries without repeated keys *)

Lemma nodupb_NoDup (l : list string) : nodupb l = true -> NoDup l.
Proof.
  induction l as [| x l IH]; simpl; [constructor |].
  rewrite andb_true_iff, negb_true_iff. intros [Hx Hl].
  constructor; auto. intros Hin.
  assert (existsb (String.eqb x) l = true); [| congruence].
  apply existsb_exists. exists x. split; auto. apply String.eqb_refl.
Qed.

Lemma dict_get_unique {A : Type} (d : dict A) (k : string) (v : A) :
  NoDup (map fst d) -> In (k, v) d -> dict_get k d = Some v.
Proof.
  induction d as [| [k' v'] d IH]; simpl; [contradiction |].
  intros Hnd [[= -> ->] | Hin].
  - now rewrite String.eqb_refl.
  - apply NoDup_cons_iff in Hnd. destruct Hnd as [Hk' Hnd].
    destruct (String.eqb_spec k' k) as [-> | Hne]; auto.
    exfalso. apply Hk'. change k with (fst (k, v)). now apply in_map.
Qed.

Lemma wf_json_dict (d : dict json) :
  wf_json (JDict d) = true ->
  NoDup (map fst d) /\ forall kv, In kv d -> wf_json (snd kv) = true.
Proof.
  simpl. rewrite andb_true_iff, forallb_forall. intros [H1 H2].
  split; auto using nodupb_NoDup.
Qed.

(** ** [sort_keys] and identical data *)

Lemma same_value_list (l1 l2 : list json) :
  same_value (JList l1) (JList l2) <-> Forall2 same_value l1 l2.
Proof.
  simpl. revert l2. induction l1 as [| x l1 IH]; intros [| y l2]; simpl.
  - split; auto.
  - split; [contradiction | inversion 1].
  - split; [contradiction | inversion 1].
  - rewrite IH. split.
    + intros [? ?]. now constructor.
    + inversion 1; subst. auto.
Qed.

Lemma same_value_dict (d1 d2 : dict json) :
  same_value (JDict d1) (JDict d2) <->
  length d1 = length d2
  /\ Forall (fun kv => exists v', dict_get (fst kv) d2 = Some v'
                                  /\ same_value (snd kv) v') d1.
Proof.
  simpl. apply and_iff_compat_l.
  induction d1 as [| kv d1 IH]; simpl.
  - split; auto.
  - rewrite IH. split.
    + intros [H1 H2]. constructor; auto.
      destruct (dict_get (fst kv) d2) as [v' |]; [eauto | contradiction].
    + inversion 1 as [| ? ? (v' & Hget & Hs) Hrest]; subst.
      rewrite Hget. auto.
Qed.

Lemma sort_keys_dict (d : dict json) :
  sort_keys (JDict d) = JDict (sort_items (map sort_item d)).
Proof. reflexivity. Qed.

Lemma map_fst_sort_item (d : dict json) : map fst (map sort_item d) = map fst d.
Proof. rewrite map_map. reflexivity. Qed.

(** Sorting the keys identifies exactly the values that hold the same
    data. *)
Lemma sort_keys_same_value (v1 : json) :
  forall v2 : json,
    wf_json v1 = true -> wf_json v2 = true ->
    (sort_keys v1 = sort_keys v2 <-> same_value v1 v2).
Proof.
  induction v1 as [| b | z | f | s | l IH | d IH] using json_ind;
    intros v2 W1 W2.
  1-5: destruct v2; simpl; split; try congruence; try contradiction;
       intros; subst; auto.
  - destruct v2 as [| | | | | l2 |]; try (simpl; split; [discriminate | contradiction]).
    rewrite same_value_list. simpl in W1, W2.
    revert l2 W2. induction IH as [| x l Hx _ IHl]; intros [| y l2] W2;
      simpl in *.
    + split; auto.
    + split; [discriminate | inversion 1].
    + split; [discriminate | inversion 1].
    + rewrite andb_true_iff in W1, W2. destruct W1 as [Wx Wl], W2 as [Wy Wl2].
      specialize (IHl Wl l2 Wl2). specialize (Hx y Wx Wy). split.
      * intros [= H1 H2]. constructor; [now apply Hx |].
        apply IHl. now f_equal.
      * inversion 1; subst.
        assert (Ex : sort_keys x = sort_keys y) by (now apply Hx).
        assert (E : JList (map sort_keys l) = JList (map sort_keys l2))
          by (now apply IHl).
        congruence.
  - destruct v2 as [| | | | | | d2]; try (simpl; split; [discriminate | now intros []]).
    rewrite same_value_dict, !sort_keys_dict.
    destruct (wf_json_dict d W1) as [N1 E1].
    destruct (wf_json_dict d2 W2) as [N2 E2].
    rewrite Forall_forall in IH. split.
    + intros [= Hs].
      assert (Hp : Permutation (map sort_item d) (map sort_item d2)).
      { rewrite <- (sort_items_perm (map sort_item d)), Hs. apply sort_items_perm. }
      split.
      * apply Permutation_length in Hp. now rewrite !length_map in Hp.
      * rewrite Forall_forall. intros kv Hin.
        assert (Hin2 : In (sort_item kv) (map sort_item d2)).
        { eapply Permutation_in; [exact Hp | now apply in_map]. }
        apply in_map_iff in Hin2. destruct Hin2 as [[k' v'] [Heq Hin2]].
        unfold sort_item in Heq. simpl in Heq. injection Heq as Hk Hv.
        exists v'. split.
        -- apply dict_get_unique; auto. now rewrite <- Hk.
        -- apply (IH kv Hin v'); auto. apply (E2 _ Hin2).
    + intros [Hlen Hall]. rewrite Forall_forall in Hall. f_equal.
      apply sort_items_perm_eq; [now rewrite map_fst_sort_item |].
      apply NoDup_Permutation_bis.
      * apply (NoDup_map_inv fst). now rewrite map_fst_sort_item.
      * rewrite !length_map. lia.
      * intros x Hx. apply in_map_iff in Hx. destruct Hx as [kv [<- Hin]].
        destruct (Hall kv Hin) as (v' & Hget & Hsame).
        apply dict_get_In in Hget.
        apply in_map_iff. exists (fst kv, v'). split; auto.
        unfold sort_item. simpl. f_equal. symmetry.
        apply (IH kv Hin v'); auto. apply (E2 _ Hget).
Qed.

(** ** Strings *)

Lemma string_app_assoc (a b c : string) : (a ++ b) ++ c = a ++ (b ++ c).
Proof. induction a; simpl; congruence. Qed.

Lemma string_app_nil_r (a : string) : a ++ EmptyString = a.
Proof. induction a; simpl; congruence. Qed.

Lemma string_tail_eq (c : ascii) (x y : string) : String c x = String c y -> x = y.
Proof. now intros [= H]. Qed.

Lemma string_app_inv_head (a x y : string) : a ++ x = a ++ y -> x = y.
Proof. induction a; simpl; intros H; auto. injection H. auto. Qed.

Lemma string_forall_impl (p q : ascii -> bool) (s : string) :
  (forall c, p c = true -> q c = true) ->
  string_forall p s = true -> string_forall q s = true.
Proof.
  intros Hpq. induction s as [| c s IH]; simpl; auto.
  rewrite !andb_true_iff. intros [? ?]. auto.
Qed.

Lemma string_forall_app (p : ascii -> bool) (a b : string) :
  string_forall p (a ++ b) = string_forall p a && string_forall p b.
Proof. induction a; simpl; auto. rewrite IHa. apply andb_assoc. Qed.

Lemma all_ascii_complete (c : ascii) : In c all_ascii.
Proof.
  unfold all_ascii. apply in_map_iff. exists (nat_of_ascii c).
  split; [apply ascii_nat_embedding |].
  apply in_seq. pose proof (nat_ascii_bounded c). lia.
Qed.

(** A property of characters checked on all 256 of them. *)
Lemma ascii_forall (p : ascii -> bool) :
  forallb p all_ascii = true -> forall c, p c = true.
Proof.
  intros H c. rewrite forallb_forall in H. apply H, all_ascii_complete.
Qed.

Lemma dec_char_plain (c : ascii) : dec_char c = true -> is_plain c = true.
Proof.
  revert c.
  assert (H : forall c, implb (dec_char c) (is_plain c) = true)
    by (apply ascii_forall; vm_compute; reflexivity).
  intros c Hc. specialize (H c). now rewrite Hc in H.
Qed.

Lemma float_char_plain (c : ascii) : float_char c = true -> is_plain c = true.
Proof.
  revert c.
  assert (H : forall c, implb (float_char c) (is_plain c) = true)
    by (apply ascii_forall; vm_compute; reflexivity).
  intros c Hc. specialize (H c). now rewrite Hc in H.
Qed.

Lemma plain_not_delim (c : ascii) : is_plain c = true -> is_delim c = false.
Proof.
  unfold is_plain. rewrite andb_true_iff, !negb_true_iff. tauto.
Qed.

Lemma plain_not_opener (c : ascii) : is_plain c = true -> is_opener c = false.
Proof.
  unfold is_plain. rewrite andb_true_iff, !negb_true_iff. tauto.
Qed.

Lemma opener_not_delim (c : ascii) : is_opener c = true -> is_delim c = false.
Proof.
  revert c.
  assert (H : forall c, implb (is_opener c) (negb (is_delim c)) = true)
    by (apply ascii_forall; vm_compute; reflexivity).
  intros c Hc. specialize (H c). rewrite Hc in H. simpl in H.
  now apply negb_true_iff.
Qed.

(** ** Decimal numerals *)

Lemma uint_chars (d : Decimal.uint) :
  string_forall dec_char (NilEmpty.string_of_uint d) = true.
Proof. induction d; simpl; auto. Qed.

Lemma dec_chars (z : Z) : string_forall dec_char (dec z) = true.
Proof.
  unfold dec. destruct (Z.to_int z) as [d | d]; simpl;
    destruct d; simpl; auto using uint_chars.
Qed.

Lemma dec_nonempty (z : Z) : dec z <> EmptyString.
Proof.
  unfold dec. destruct z as [| p | p]; simpl; try discriminate.
  destruct (Pos.to_uint p); simpl; discriminate.
Qed.

Lemma dec_inj (z z' : Z) : dec z = dec z' -> z = z'.
Proof.
  unfold dec. intros H. apply to_int_inj.
  assert (Hparse : forall n, NilZero.int_of_string
                               (NilZero.string_of_int (Z.to_int n))
                             = Some (Z.to_int n)).
  { intros n. apply NilZero.isi; destruct n as [| p | p]; simpl;
      try discriminate; intros [= Hp]; now apply (Unsigned.to_uint_nonnil p). }
  pose proof (Hparse z) as H1. rewrite H, Hparse in H1. now injection H1.
Qed.

(** ** Tokens *)

Lemma tokens_split (t1 : string) :
  forall t2 r1 r2 : string,
    string_forall is_plain t1 = true -> string_forall is_plain t2 = true ->
    closes r1 -> closes r2 ->
    t1 ++ r1 = t2 ++ r2 -> t1 = t2 /\ r1 = r2.
Proof.
  induction t1 as [| c t1 IH]; intros [| c2 t2] r1 r2 P1 P2 C1 C2 H; simpl in *.
  - auto.
  - subst r1. simpl in C1. apply andb_true_iff in P2. destruct P2 as [P2 _].
    apply plain_not_delim in P2. congruence.
  - subst r2. simpl in C2. apply andb_true_iff in P1. destruct P1 as [P1 _].
    apply plain_not_delim in P1. congruence.
  - injection H as -> H. apply andb_true_iff in P1, P2.
    destruct (IH t2 r1 r2) as [-> ->]; tauto.
Qed.

(** ** Quoted strings *)

Lemma app_is_prefix (a : string) :
  forall b x y : string, a ++ x = b ++ y -> is_prefix a b = true \/ is_prefix b a = true.
Proof.
  induction a as [| c a IH]; intros [| c' b] x y H; simpl in *; auto.
  injection H as -> H. rewrite Ascii.eqb_refl. simpl. eauto.
Qed.

Lemma is_prefix_app (a : string) :
  forall b : string, is_prefix a b = true -> exists t, b = a ++ t.
Proof.
  induction a as [| c a IH]; intros b H; simpl in *; eauto.
  destruct b as [| c' b]; [discriminate |].
  apply andb_true_iff in H. destruct H as [Hc Hp]. apply Ascii.eqb_eq in Hc.
  subst c'. destruct (IH b Hp) as [t ->]. eauto.
Qed.

(** No escape is the beginning of another one. *)
Lemma escape_char_prefix_free (c c' : ascii) :
  is_prefix (escape_char c) (escape_char c') = true -> c = c'.
Proof.
  assert (H : forall c,
             forallb (fun c' => implb (is_prefix (escape_char c) (escape_char c'))
                                      (Ascii.eqb c c')) all_ascii = true)
    by (apply ascii_forall; vm_compute; reflexivity).
  intros Hp. specialize (H c). rewrite forallb_forall in H.
  specialize (H c' (all_ascii_complete c')). rewrite Hp in H. simpl in H.
  now apply Ascii.eqb_eq.
Qed.

Lemma escape_char_split (c c' : ascii) (x y : string) :
  escape_char c ++ x = escape_char c' ++ y -> c = c' /\ x = y.
Proof.
  intros H.
  assert (Hc : c = c').
  { destruct (app_is_prefix _ _ _ _ H) as [Hp | Hp];
      [| symmetry]; now apply escape_char_prefix_free. }
  subst c'. split; auto. eapply string_app_inv_head; eauto.
Qed.

(** An escape never starts with the quote. *)
Lemma escape_char_head (c : ascii) (x : string) :
  exists h t, escape_char c ++ x = String h t /\ h <> dquote.
Proof.
  assert (H : forall c, match escape_char c with
                        | EmptyString => false
                        | String h _ => negb (Ascii.eqb h dquote)
                        end = true)
    by (apply ascii_forall; vm_compute; reflexivity).
  specialize (H c). destruct (escape_char c) as [| h t]; [discriminate |].
  exists h, (t ++ x). split; auto.
  apply negb_true_iff in H. now apply Ascii.eqb_neq.
Qed.

Lemma escaped_split (s : string) :
  forall s' r1 r2 : string,
    string_flat_map escape_char s ++ String dquote r1
    = string_flat_map escape_char s' ++ String dquote r2 ->
    s = s' /\ r1 = r2.
Proof.
  induction s as [| c s IH]; intros [| c' s'] r1 r2 H; simpl in *.
  - injection H. auto.
  - rewrite string_app_assoc in H.
    destruct (escape_char_head c'
                (string_flat_map escape_char s' ++ String dquote r2))
      as (h & t & E & Hh).
    rewrite E in H. injection H as Hq _. congruence.
  - rewrite string_app_assoc in H.
    destruct (escape_char_head c
                (string_flat_map escape_char s ++ String dquote r1))
      as (h & t & E & Hh).
    rewrite E in H. injection H as Hq _. congruence.
  - rewrite !string_app_assoc in H. apply escape_char_split in H.
    destruct H as [-> H]. destruct (IH _ _ _ H) as [-> ->]. auto.
Qed.

Lemma basestring_app (s r : string) :
  py_encode_basestring s ++ r
  = String dquote (string_flat_map escape_char s ++ String dquote r).
Proof.
  unfold py_encode_basestring, str1. simpl. now rewrite string_app_assoc.
Qed.

Lemma basestring_split (s s' r1 r2 : string) :
  py_encode_basestring s ++ r1 = py_encode_basestring s' ++ r2 ->
  s = s' /\ r1 = r2.
Proof.
  rewrite !basestring_app. intros [= H]. now apply escaped_split.
Qed.

(** ** The encoder writes different values differently *)

Section Discrimination.

Context {Laws : PyFloatLaws PF}.

Lemma scalar_plain (v : json) :
  is_scalar v = true ->
  json_encode v <> EmptyString /\ string_forall is_plain (json_encode v) = true.
Proof.
  destruct v as [| [|] | z | f | | |]; simpl; try discriminate; intros _.
  1-3: split; [discriminate | reflexivity].
  - split; [apply dec_nonempty |].
    eapply string_forall_impl; [apply dec_char_plain | apply dec_chars].
  - destruct (float_json_token f) as [Hne Hch]. split; auto.
    eapply string_forall_impl; [apply float_char_plain | exact Hch].
Qed.

Ltac not_a_numeral z H :=
  exfalso; pose proof (dec_chars z) as C;
  first [rewrite <- H in C | rewrite H in C]; vm_compute in C; discriminate C.

Ltac not_a_float f H :=
  exfalso; pose proof (proj2 (float_json_token f)) as C;
  first [rewrite <- H in C | rewrite H in C]; vm_compute in C; discriminate C.

Lemma scalar_inj (v1 v2 : json) :
  is_scalar v1 = true -> is_scalar v2 = true ->
  json_encode v1 = json_encode v2 -> v1 = v2.
Proof.
  destruct v1 as [| [|] | z | f | | |], v2 as [| [|] | z' | f' | | |];
    simpl; try discriminate; intros _ _ H;
    try reflexivity; try discriminate H.
  all: try (not_a_numeral z H); try (not_a_numeral z' H).
  all: try (not_a_float f H); try (not_a_float f' H).
  - f_equal. now apply dec_inj.
  - exfalso. now apply (float_json_not_int f' z).
  - exfalso. now apply (float_json_not_int f z').
  - f_equal. now apply float_json_inj.
Qed.

Lemma encode_str_eq (s : string) : json_encode (JStr s) = py_encode_basestring s.
Proof. reflexivity. Qed.

Lemma encode_list_eq (l : list json) :
  json_encode (JList l) = "[" ++ String.concat ", " (map json_encode l) ++ "]".
Proof. reflexivity. Qed.

Lemma encode_dict_eq (d : dict json) :
  json_encode (JDict d) = "{" ++ String.concat ", " (map encode_item d) ++ "}".
Proof. reflexivity. Qed.

Lemma concat_items_tail (ts : list string) :
  forall (t r : string), String.concat ", " (t :: ts) ++ r = t ++ items_tail ts r.
Proof.
  induction ts as [| u us IH]; intros t r.
  - reflexivity.
  - change (String.concat ", " (t :: u :: us))
      with (t ++ ", " ++ String.concat ", " (u :: us)).
    rewrite !string_app_assoc, IH. reflexivity.
Qed.

Lemma encode_list_app (l : list json) (r : string) :
  json_encode (JList l) ++ r
  = String "[" match l with
               | [] => String "]" r
               | x :: t => json_encode x ++ items_tail (map json_encode t) (String "]" r)
               end.
Proof.
  rewrite encode_list_eq. destruct l as [| x t].
  - reflexivity.
  - rewrite !string_app_assoc. simpl map. rewrite concat_items_tail. reflexivity.
Qed.

Lemma encode_dict_app (d : dict json) (r : string) :
  json_encode (JDict d) ++ r
  = String "{" match d with
               | [] => String "}" r
               | kv :: t => encode_item kv ++ items_tail (map encode_item t) (String "}" r)
               end.
Proof.
  rewrite encode_dict_eq. destruct d as [| kv t].
  - reflexivity.
  - rewrite !string_app_assoc. simpl map. rewrite concat_items_tail. reflexivity.
Qed.

(** The first character of a value tells a scalar from the rest, and is
    never a delimiter. *)
Lemma encode_head (v : json) (r : string) :
  exists c t, json_encode v ++ r = String c t
              /\ is_delim c = false /\ is_opener c = negb (is_scalar v).
Proof.
  destruct (is_scalar v) eqn:Hs.
  - destruct (scalar_plain v Hs) as [Hne Hp].
    destruct (json_encode v) as [| c t]; [now contradiction Hne |].
    simpl in Hp. apply andb_true_iff in Hp. destruct Hp as [Hp _].
    exists c, (t ++ r). simpl.
    auto using plain_not_delim, plain_not_opener.
  - destruct v as [| | | | s | l | d]; try discriminate.
    + rewrite encode_str_eq, basestring_app. eauto.
    + rewrite encode_list_app. eauto.
    + rewrite encode_dict_app. eauto.
Qed.

Lemma head_mismatch (v v2 : json) (r1 r2 : string) :
  is_scalar v = negb (is_scalar v2) ->
  json_encode v ++ r1 = json_encode v2 ++ r2 -> False.
Proof.
  intros Hs H.
  destruct (encode_head v r1) as (c & t & E1 & _ & O1).
  destruct (encode_head v2 r2) as (c2 & t2 & E2 & _ & O2).
  rewrite E1, E2 in H. injection H as -> _.
  rewrite O1, Hs in O2. destruct (is_scalar v2); discriminate.
Qed.

Lemma scalar_splits (v : json) : is_scalar v = true -> splits v.
Proof.
  intros Hs v2 r1 r2 C1 C2 H. destruct (is_scalar v2) eqn:Hs2.
  - destruct (scalar_plain v Hs) as [_ P1].
    destruct (scalar_plain v2 Hs2) as [_ P2].
    destruct (tokens_split _ _ _ _ P1 P2 C1 C2 H) as [E ->].
    split; auto using scalar_inj.
  - exfalso. apply (head_mismatch v v2 r1 r2); auto. now rewrite Hs, Hs2.
Qed.

Lemma items_tail_cons (t : string) (ts : list string) (r : string) :
  items_tail (t :: ts) r = String "," (String " " (t ++ items_tail ts r)).
Proof. reflexivity. Qed.

Lemma items_tail_closes (ts : list string) (c : ascii) (r : string) :
  is_delim c = true -> closes (items_tail ts (String c r)).
Proof. destruct ts; simpl; auto. Qed.

Lemma list_tail_split (l : list json) :
  Forall splits l ->
  forall (l' : list json) (r1 r2 : string),
    items_tail (map json_encode l) (String "]" r1)
    = items_tail (map json_encode l') (String "]" r2) ->
    l = l' /\ r1 = r2.
Proof.
  induction 1 as [| x l Hx _ IH]; intros [| y l'] r1 r2 H; simpl in H.
  - injection H. auto.
  - discriminate.
  - discriminate.
  - injection H as H.
    apply Hx in H; try (apply items_tail_closes; reflexivity).
    destruct H as [-> H]. destruct (IH _ _ _ H) as [-> ->]. auto.
Qed.

Lemma encode_item_app (kv : string * json) (r : string) :
  encode_item kv ++ r
  = py_encode_basestring (fst kv)
    ++ String ":" (String " " (json_encode (snd kv) ++ r)).
Proof.
  unfold encode_item. rewrite !string_app_assoc. reflexivity.
Qed.

Lemma item_split (kv kv' : string * json) (r1 r2 : string) :
  splits (snd kv) -> closes r1 -> closes r2 ->
  encode_item kv ++ r1 = encode_item kv' ++ r2 -> kv = kv' /\ r1 = r2.
Proof.
  intros Hv C1 C2 H. rewrite !encode_item_app in H.
  apply basestring_split in H. destruct H as [Hk H]. injection H as H.
  apply Hv in H; auto. destruct H as [Hv' ->].
  destruct kv, kv'; simpl in *. subst. auto.
Qed.

Lemma dict_tail_split (d : dict json) :
  Forall (fun kv => splits (snd kv)) d ->
  forall (d' : dict json) (r1 r2 : string),
    items_tail (map encode_item d) (String "}" r1)
    = items_tail (map encode_item d') (String "}" r2) ->
    d = d' /\ r1 = r2.
Proof.
  induction 1 as [| kv d Hkv _ IH]; intros [| kv' d'] r1 r2 H;
    cbn [map] in H; rewrite ?items_tail_cons in H.
  - injection H. auto.
  - discriminate.
  - discriminate.
  - do 2 apply string_tail_eq in H.
    apply item_split in H; auto; try (apply items_tail_closes; reflexivity).
    destruct H as [-> H]. destruct (IH _ _ _ H) as [-> ->]. auto.
Qed.

Lemma json_encode_splits (v : json) : splits v.
Proof.
  induction v as [| b | z | f | s | l IH | d IH] using json_ind.
  1-4: now apply scalar_splits.
  - intros v2 r1 r2 C1 C2 H.
    destruct v2 as [| | | | s2 | l2 | d2];
      try (exfalso; eapply head_mismatch; [| exact H]; reflexivity);
      rewrite ?encode_str_eq in H.
    + apply basestring_split in H. destruct H as [-> ->]. auto.
    + rewrite basestring_app, encode_list_app in H. discriminate.
    + rewrite basestring_app, encode_dict_app in H. discriminate.
  - intros v2 r1 r2 C1 C2 H.
    destruct v2 as [| | | | s2 | l2 | d2];
      try (exfalso; eapply head_mismatch; [| exact H]; reflexivity);
      rewrite ?encode_str_eq in H.
    + rewrite basestring_app, encode_list_app in H. discriminate.
    + rewrite !encode_list_app in H. injection H as H.
      destruct l as [| x l], l2 as [| y l2].
      * injection H. auto.
      * exfalso.
        destruct (encode_head y (items_tail (map json_encode l2) (String "]" r2)))
          as (c & t & E & Hd & _).
        rewrite E in H. injection H as Hc _. subst c. discriminate Hd.
      * exfalso.
        destruct (encode_head x (items_tail (map json_encode l) (String "]" r1)))
          as (c & t & E & Hd & _).
        rewrite E in H. injection H as Hc _. subst c. discriminate Hd.
      * inversion IH as [| ? ? Hx Hl]; subst.
        apply Hx in H; try (apply items_tail_closes; reflexivity).
        destruct H as [-> H]. destruct (list_tail_split l Hl _ _ _ H) as [-> ->].
        auto.
    + rewrite encode_dict_app, encode_list_app in H. discriminate.
  - intros v2 r1 r2 C1 C2 H.
    destruct v2 as [| | | | s2 | l2 | d2];
      try (exfalso; eapply head_mismatch; [| exact H]; reflexivity);
      rewrite ?encode_str_eq in H.
    + rewrite basestring_app, encode_dict_app in H. discriminate.
    + rewrite encode_dict_app, encode_list_app in H. discriminate.
    + rewrite !encode_dict_app in H. apply string_tail_eq in H.
      destruct d as [| kv d], d2 as [| kv2 d2].
      * injection H. auto.
      * exfalso. rewrite encode_item_app, basestring_app in H. discriminate.
      * exfalso. rewrite encode_item_app, basestring_app in H. discriminate.
      * inversion IH as [| ? ? Hkv Hd]; subst.
        apply item_split in H; auto; try (apply items_tail_closes; reflexivity).
        destruct H as [-> H]. destruct (dict_tail_split d Hd _ _ _ H) as [-> ->].
        auto.
Qed.

Lemma json_encode_inj (v1 v2 : json) :
  json_encode v1 = json_encode v2 -> v1 = v2.
Proof.
  intros H.
  destruct (json_encode_splits v1 v2 EmptyString EmptyString) as [-> _];
    simpl; auto.
  now rewrite !string_app_nil_r.
Qed.

(** Two well-formed records have the same signature exactly when they hold
    the same data. *)
Lemma record_signature_eq_iff (R1 R2 : pyobj) :
  wf_json (JDict (obj_fields R1)) = true ->
  wf_json (JDict (obj_fields R2)) = true ->
  (record_signature R1 = record_signature R2
   <-> same_value (JDict (obj_fields R1)) (JDict (obj_fields R2))).
Proof.
  intros W1 W2. unfold record_signature, json_dumps_sorted.
  rewrite <- (sort_keys_same_value _ _ W1 W2). split.
  - apply json_encode_inj.
  - now intros ->.
Qed.

(** C7. Records holding identical field values have the same signature,
    in whatever order the fields were inserted; records that differ in a
    field value have different signatures. *)
Theorem signature_deterministic_and_discriminating (R1 R2 : pyobj) :
  wf_json (JDict (obj_fields R1)) = true ->
  wf_json (JDict (obj_fields R2)) = true ->
  (Permutation (obj_fields R1) (obj_fields R2) ->
   record_signature R1 = record_signature R2)
  /\ (same_value (JDict (obj_fields R1)) (JDict (obj_fields R2)) ->
      record_signature R1 = record_signature R2)
  /\ (~ same_value (JDict (obj_fields R1)) (JDict (obj_fields R2)) ->
      record_signature R1 <> record_signature R2).
Proof.
  intros W1 W2.
  pose proof (record_signature_eq_iff R1 R2 W1 W2) as Hiff.
  split; [| split].
  - intros Hp. unfold record_signature, json_dumps_sorted.
    rewrite !sort_keys_dict. do 2 f_equal.
    apply sort_items_perm_eq.
    + rewrite map_fst_sort_item. now destruct (wf_json_dict _ W1).
    + now apply Permutation_map.
  - apply Hiff.
  - intros Hn Heq. apply Hn. now apply Hiff.
Qed.

End Discrimination.

End HarvesterProperties.

(* ================================================================== *)
(** * The decimal floats satisfy the laws *)

Lemma split_at_char (p : ascii -> bool) (c : ascii) (t1 : string) :
  forall t2 r1 r2 : string,
    p c = false ->
    string_forall p t1 = true -> string_forall p t2 = true ->
    t1 ++ String c r1 = t2 ++ String c r2 -> t1 = t2 /\ r1 = r2.
Proof.
  induction t1 as [| a t1 IH]; intros [| b t2] r1 r2 Hc P1 P2 H; simpl in *.
  - injection H. auto.
  - injection H as -> _. apply andb_true_iff in P2. destruct P2. congruence.
  - injection H as -> _. apply andb_true_iff in P1. destruct P1. congruence.
  - injection H as -> H. apply andb_true_iff in P1, P2.
    destruct (IH t2 r1 r2) as [-> ->]; tauto.
Qed.

Lemma dec_char_float_char (c : ascii) : dec_char c = true -> float_char c = true.
Proof.
  revert c.
  assert (H : forall c, implb (dec_char c) (float_char c) = true)
    by (apply ascii_forall; vm_compute; reflexivity).
  intros c Hc. specialize (H c). now rewrite Hc in H.
Qed.

Lemma DecFloat_laws : PyFloatLaws DecFloat.
Proof.
  constructor.
  - intros [m e] [m' e']. simpl. unfold decfloat_text. simpl. intros H.
    apply (split_at_char dec_char) in H; auto using dec_chars.
    destruct H as [Hm He]. apply dec_inj in Hm, He. now subst.
  - intros [m e]. simpl. unfold decfloat_text. simpl. split.
    + pose proof (dec_nonempty m) as H. destruct (dec m); [contradiction |].
      discriminate.
    + rewrite string_forall_app. simpl. rewrite andb_true_iff.
      split; (eapply string_forall_impl; [apply dec_char_float_char | apply dec_chars]).
  - intros [m e] z. simpl. unfold decfloat_text. simpl. intros H.
    pose proof (dec_chars z) as C. rewrite <- H, string_forall_app in C.
    simpl in C. rewrite andb_false_r in C. discriminate.
Qed.

(* ================================================================== *)
(** * The theorems on the sample data *)

(** Scenario 1 of section 8: one record unchanged, one created, and the
    unchanged one is the previous object, not the fetched one. *)
Lemma scenario_unchanged_and_created :
  apply_incremental_harvest [cur_a; cur_b] [prev_a] sigs_a
  = ([prev_a; cur_b],
     [("1", record_signature cur_a); ("2", record_signature cur_b)],
     mkstats 1 0 1 2)
  /\ prev_a <> cur_a.
Proof. split; [reflexivity | discriminate]. Qed.

(** Scenario 2: no previous state. *)
Lemma scenario_first_harvest :
  stats_of (apply_incremental_harvest [cur_b] [] []) = mkstats 1 0 0 1.
Proof. reflexivity. Qed.

(** Scenario 3: a changed record. *)
Lemma scenario_updated :
  apply_incremental_harvest [cur_new] [prev_old] [("3", record_signature prev_old)]
  = ([cur_new], [("3", record_signature cur_new)], mkstats 0 1 0 1).
Proof. reflexivity. Qed.

Lemma unchanged_iff_previous_object_emitted_witness :
  identity_key cur_a = Some "1"
  /\ unchanged_condition [prev_a] sigs_a cur_a "1"
  /\ exists previous_record,
       dict_get "1" (index_previous [prev_a]) = Some previous_record
       /\ In previous_record [prev_a]
       /\ nth_error (final_records_of
                       (apply_incremental_harvest ([] ++ cur_a :: [cur_b])
                          [prev_a] sigs_a))
                    (length (final_records_of
                               (apply_incremental_harvest [] [prev_a] sigs_a)))
          = Some previous_record.
Proof.
  assert (Hc : unchanged_condition [prev_a] sigs_a cur_a "1").
  { split; [exists (record_signature prev_a); split |]; reflexivity. }
  split; [reflexivity |]. split; [exact Hc |].
  exact (proj2 (unchanged_iff_previous_object_emitted [] [cur_b] cur_a "1"
                  [prev_a] sigs_a eq_refl) Hc).
Defined.

(** C2 as stated fails: two current records share the identifier 1, and
    the second run counts the first of them updated. *)
Lemma idempotence_fails_on_repeated_key :
  Forall (fun record => py_get "datastream_id" (obj_fields record) <> JNull)
         [dup_a; dup_b]
  /\ stats_of (apply_incremental_harvest [dup_a; dup_b]
                 (final_records_of (apply_incremental_harvest [dup_a; dup_b] [] []))
                 (signatures_of (apply_incremental_harvest [dup_a; dup_b] [] [])))
     = mkstats 0 1 1 2
  /\ ~ (updated (stats_of
                   (apply_incremental_harvest [dup_a; dup_b]
                      (final_records_of
                         (apply_incremental_harvest [dup_a; dup_b] [] []))
                      (signatures_of
                         (apply_incremental_harvest [dup_a; dup_b] [] [])))) = 0
        /\ created (stats_of
                      (apply_incremental_harvest [dup_a; dup_b]
                         (final_records_of
                            (apply_incremental_harvest [dup_a; dup_b] [] []))
                         (signatures_of
                            (apply_incremental_harvest [dup_a; dup_b] [] [])))) = 0
        /\ unchanged (stats_of
                        (apply_incremental_harvest [dup_a; dup_b]
                           (final_records_of
                              (apply_incremental_harvest [dup_a; dup_b] [] []))
                           (signatures_of
                              (apply_incremental_harvest [dup_a; dup_b] [] []))))
           = length [dup_a; dup_b]).
Proof.
  split; [repeat constructor; discriminate |].
  split; [reflexivity |].
  vm_compute. intros [H _]. discriminate H.
Qed.

Lemma idempotent_on_distinct_keys_witness :
  Forall (fun record => py_get "datastream_id" (obj_fields record) <> JNull)
         [cur_a; cur_b]
  /\ NoDup (identity_keys [cur_a; cur_b])
  /\ updated (stats_of
                (apply_incremental_harvest [cur_a; cur_b]
                   (final_records_of
                      (apply_incremental_harvest [cur_a; cur_b] [prev_a] sigs_a))
                   (signatures_of
                      (apply_incremental_harvest [cur_a; cur_b] [prev_a] sigs_a))))
     = 0.
Proof.
  assert (Hall : Forall (fun record =>
                           py_get "datastream_id" (obj_fields record) <> JNull)
                        [cur_a; cur_b])
    by (repeat constructor; discriminate).
  assert (Hnd : NoDup (identity_keys [cur_a; cur_b])).
  { vm_compute. repeat constructor; simpl; intuition discriminate. }
  split; [exact Hall |]. split; [exact Hnd |].
  exact (proj1 (idempotent_on_distinct_keys [cur_a; cur_b] [prev_a] sigs_a Hall Hnd)).
Defined.

Lemma changed_record_updated_or_created_witness :
  identity_key cur_new = Some "3"
  /\ (forall old,
        dict_get "3" [("3", record_signature prev_old)] = Some old ->
        old <> record_signature cur_new ->
        updated (stats_of (apply_incremental_harvest ([] ++ [cur_new]) [prev_old]
                             [("3", record_signature prev_old)]))
        = S (updated (stats_of (apply_incremental_harvest [] [prev_old]
                                  [("3", record_signature prev_old)])))
        /\ created (stats_of (apply_incremental_harvest ([] ++ [cur_new]) [prev_old]
                                [("3", record_signature prev_old)]))
           = created (stats_of (apply_incremental_harvest [] [prev_old]
                                  [("3", record_signature prev_old)]))
        /\ unchanged (stats_of (apply_incremental_harvest ([] ++ [cur_new]) [prev_old]
                                  [("3", record_signature prev_old)]))
           = unchanged (stats_of (apply_incremental_harvest [] [prev_old]
                                    [("3", record_signature prev_old)]))).
Proof.
  split; [reflexivity |].
  exact (proj2 (proj2 (changed_record_updated_or_created [] [] cur_new "3"
                         [prev_old] [("3", record_signature prev_old)] eq_refl))).
Defined.

Lemma stats_partition_witness :
  NoDup (identity_keys [cur_a; no_id; cur_b])
  /\ total (stats_of (apply_incremental_harvest [cur_a; no_id; cur_b] [prev_a] sigs_a))
     = length (final_records_of
                 (apply_incremental_harvest [cur_a; no_id; cur_b] [prev_a] sigs_a)).
Proof.
  assert (Hnd : NoDup (identity_keys [cur_a; no_id; cur_b])).
  { vm_compute. repeat constructor; simpl; intuition discriminate. }
  split; [exact Hnd |].
  exact (proj2 (stats_partition [cur_a; no_id; cur_b] [prev_a] sigs_a Hnd)).
Defined.

Lemma key_drop_witness :
  py_get "datastream_id" (obj_fields no_id) = JNull
  /\ apply_incremental_harvest ([cur_a] ++ no_id :: [cur_b]) [prev_a] sigs_a
     = apply_incremental_harvest ([cur_a] ++ [cur_b]) [prev_a] sigs_a.
Proof.
  split; [reflexivity |].
  exact (proj1 (key_drop [cur_a] [cur_b] no_id [prev_a] sigs_a eq_refl)).
Defined.

(** The order of the final records is the order of the current ones, here
    2 before 1, whatever the previous snapshot. *)
Lemma final_order_example :
  final_records_of (apply_incremental_harvest [cur_b; no_id; cur_a] [prev_a] sigs_a)
  = [cur_b; prev_a].
Proof. reflexivity. Qed.

Lemma signature_deterministic_and_discriminating_witness :
  wf_json (JDict (obj_fields prev_a)) = true
  /\ wf_json (JDict (obj_fields cur_a)) = true
  /\ Permutation (obj_fields prev_a) (obj_fields cur_a)
  /\ record_signature prev_a = record_signature cur_a.
Proof.
  assert (Hp : Permutation (obj_fields prev_a) (obj_fields cur_a))
    by apply perm_swap.
  split; [reflexivity |]. split; [reflexivity |]. split; [exact Hp |].
  exact (proj1 (@signature_deterministic_and_discriminating DecFloat DecFloat_laws
                  prev_a cur_a eq_refl eq_refl) Hp).
Defined.

(** C8 as stated fails: a line string with three coordinates is no point
    with a coordinate pair, and the location is present all the same. *)
Lemma location_present_without_point_pair :
  point_with_pair line_entry = false
  /\ point_with_pair point_entry = true
  /\ _extract_location line_thing
     = Ok (JDict [("lat", JFloat (469, -1)%Z); ("lon", JFloat (75, -1)%Z)]).
Proof. repeat split. Qed.

(** A first location entry that is no dictionary has no [get]. *)
Lemma location_entry_not_a_dict_raises :
  _extract_location [("Locations", JList [JStr "somewhere"])] = Raise AttributeError.
Proof. reflexivity. Qed.

(** The scenario of section 8: coordinates [[7.5, 46.9]]. *)
Lemma location_rule_witness :
  py_get "Locations" point_thing = JList (JDict point_entry :: [])
  /\ _extract_location point_thing
     = Ok (JDict [("lat", JFloat (469, -1)%Z); ("lon", JFloat (75, -1)%Z)]).
Proof.
  split; [reflexivity |].
  apply (proj2 (proj1 (proj2 (location_rule point_thing point_entry [] eq_refl))
                  ((469, -1)%Z : @pyfloat DecFloat)
                  ((75, -1)%Z : @pyfloat DecFloat))).
  exists lon_7_5, lat_46_9. split; [| split; reflexivity].
  exists point_geometry, []. repeat split.
Defined.

Lemma present_identifier_retained_witness :
  py_get "datastream_id" (obj_fields zero_id) = JInt 0
  /\ JInt 0 <> JNull
  /\ py_truthy (JInt 0) = false
  /\ identity_key zero_id = Some "0"
  /\ dict_get "0" (signatures_of (apply_incremental_harvest ([cur_a] ++ [zero_id])
                                    [prev_a] sigs_a))
     = Some (record_signature zero_id)
  /\ item_id_of zero_id = "datastream-0".
Proof.
  assert (Hne : JInt 0 <> JNull) by discriminate.
  destruct (present_identifier_retained [cur_a] [cur_b] zero_id (JInt 0)
              [prev_a] sigs_a "istsos-datastreams" "http://localhost:8020/stac"
              eq_refl Hne)
    as (Hk & _ & Hsig & _ & _ & _ & _ & _ & Hid & _).
  repeat split; auto.
Defined.

(** The empty string is an identifier like any other. *)
Lemma empty_string_identifier_retained :
  apply_incremental_harvest [empty_id] [] []
  = ([empty_id], [(EmptyString, record_signature empty_id)], mkstats 1 0 0 1)
  /\ item_id_of empty_id = "datastream-"
  /\ length (dcat_datasets [empty_id; no_id; zero_id]) = 2
  /\ length (stac_features "c" "r" [empty_id; no_id; zero_id]) = 2.
Proof. repeat split. Qed.

(* ================================================================== *)
(** * The normalizer *)

Section NormalizerProperties.

Context {PF : PyFloat}.

Lemma split_once_some (sep : ascii) (s : string) :
  forall a b : string,
    split_once sep s = Some (a, b) ->
    s = a ++ String sep b /\ string_mem sep a = false.
Proof.
  induction s as [| c s IH]; simpl; intros a b H; [discriminate |].
  destruct (Ascii.eqb_spec c sep) as [-> | Hne].
  - injection H as <- <-. auto.
  - destruct (split_once sep s) as [[a' b'] |]; [| discriminate].
    injection H as <- <-. destruct (IH a' b' eq_refl) as [-> Hm].
    simpl. split; auto. rewrite Hm.
    destruct (Ascii.eqb_spec c sep); [contradiction | reflexivity].
Qed.

Lemma split_once_none (sep : ascii) (s : string) :
  split_once sep s = None <-> string_mem sep s = false.
Proof.
  induction s as [| c s IH]; simpl; [tauto |].
  destruct (Ascii.eqb c sep); simpl.
  - split; discriminate.
  - destruct (split_once sep s) as [[a b] |].
    + split; [discriminate |]. intros H. apply IH in H. discriminate.
    + split; auto. intros _. now apply IH.
Qed.

Lemma string_mem_middle (sep : ascii) (a b : string) :
  string_mem sep a = false -> string_mem sep (a ++ String sep b) = true.
Proof.
  induction a as [| c a IH]; simpl.
  - now rewrite Ascii.eqb_refl.
  - intros H. apply orb_false_iff in H. destruct H as [-> H]. simpl. auto.
Qed.

(** X1. [_extract_start_end] splits at the first slash only: with a slash
    in the range, start, slash and end give the range back and the start
    holds no slash; without one, both are empty. *)
Theorem start_end_round_trip (time_range : string) :
  if string_mem "/" time_range
  then fst (_extract_start_end time_range)
         ++ String "/" (snd (_extract_start_end time_range)) = time_range
       /\ string_mem "/" (fst (_extract_start_end time_range)) = false
  else _extract_start_end time_range = (EmptyString, EmptyString).
Proof.
  unfold _extract_start_end.
  destruct (split_once "/" time_range) as [[a b] |] eqn:E.
  - destruct (split_once_some _ _ _ _ E) as [-> Hm].
    rewrite string_mem_middle by exact Hm. simpl. auto.
  - apply split_once_none in E. now rewrite E.
Qed.

(** X2. The sampling frequency is the string form of the first of the
    three keys whose value is not [None]; a value such as 0 or the empty
    string counts as present and hides the keys after it. *)
Theorem sampling_frequency_first_present
    (datastream properties : dict json) (before after : list string)
    (key : string) :
  py_get "properties" datastream = JDict properties ->
  ["sampling_frequency"; "samplingFrequency"; "frequency"]
  = (before ++ key :: after)%list ->
  Forall (fun k => py_get k properties = JNull) before ->
  py_get key properties <> JNull ->
  _extract_sampling_frequency datastream = py_str (py_get key properties).
Proof.
  intros Hp Hkeys Hbefore Hkey. unfold _extract_sampling_frequency.
  rewrite Hp, Hkeys. clear Hp Hkeys.
  induction Hbefore as [| k before Hk _ IH]; simpl.
  - destruct (py_get key properties); auto. contradiction.
  - now rewrite Hk.
Qed.

Lemma extract_location_shape (thing : dict json) (location : json) :
  _extract_location thing = Ok location ->
  location = JNull
  \/ exists lat lon, location = JDict [("lat", JFloat lat); ("lon", JFloat lon)].
Proof.
  unfold _extract_location.
  destruct (negb (py_truthy (py_or (py_get "Locations" thing) (JList [])))).
  { intros [= <-]. auto. }
  destruct (py_getitem0 _) as [first |]; simpl; [| discriminate].
  destruct (py_method_get first "location") as [obj |]; simpl; [| discriminate].
  destruct obj as [| | | | | | d]; try (intros [= <-]; auto).
  destruct (py_get "coordinates" d) as [| | | | | l |]; try (intros [= <-]; auto).
  destruct l as [| c0 [| c1 more]]; try (intros [= <-]; auto).
  destruct (is_number c0 && is_number c1); try (intros [= <-]; auto).
  destruct (py_float c1) as [lat |]; simpl; [| discriminate].
  destruct (py_float c0) as [lon |]; simpl; [| discriminate].
  intros [= <-]. right. eauto.
Qed.

(** What a successful call returns. *)
Lemma record_from_datastream_ok (thing datastream fields : dict json) :
  _record_from_datastream thing datastream = Ok fields ->
  exists location sensor_type observed,
    _extract_location thing = Ok location
    /\ fields =
       [("thing_id", py_get "@iot.id" thing);
        ("thing_name", py_get_default "name" (JStr EmptyString) thing);
        ("datastream_name", py_get_default "name" (JStr EmptyString) datastream);
        ("description",
         py_or (py_get_default "description" (JStr EmptyString) datastream)
               (py_get_default "description" (JStr EmptyString) thing));
        ("location", location);
        ("sensor_type", sensor_type);
        ("observed_property", observed);
        ("unit_of_measurement", JStr (_extract_unit datastream));
        ("observation_type",
         py_get_default "observationType" (JStr EmptyString) datastream);
        ("sampling_frequency", JStr (_extract_sampling_frequency datastream));
        ("time_range", JStr (_extract_time_range datastream));
        ("start_time",
         JStr (fst (_extract_start_end (_extract_time_range datastream))));
        ("end_time",
         JStr (snd (_extract_start_end (_extract_time_range datastream))));
        ("last_observation_time",
         JStr (snd (_extract_start_end (_extract_time_range datastream))));
        ("datastream_id", py_get "@iot.id" datastream)].
Proof.
  unfold _record_from_datastream.
  destruct (_extract_location thing) as [location |]; simpl; [| discriminate].
  destruct (py_method_get_default _ "name" _) as [sensor_type |]; simpl;
    [| discriminate].
  destruct (py_method_get_default _ "name" _) as [observed |]; simpl;
    [| discriminate].
  intros [= <-]. eauto.
Qed.

(** X3. A record, when one is returned, has the fifteen fields in their
    fixed order, each once; the time fields are strings that fit together
    (the range is start, slash, end when it holds a slash, and the last
    observation time is the end time); the location is [None] or a pair of
    floats under [lat] and [lon]; the identity key is the datastream's
    [@iot.id]. *)
Theorem record_shape (thing datastream fields : dict json) :
  _record_from_datastream thing datastream = Ok fields ->
  map fst fields = record_keys
  /\ NoDup (map fst fields)
  /\ py_get "datastream_id" fields = py_get "@iot.id" datastream
  /\ py_get "last_observation_time" fields = py_get "end_time" fields
  /\ (exists time_range start_time end_time unit frequency,
        py_get "time_range" fields = JStr time_range
        /\ py_get "start_time" fields = JStr start_time
        /\ py_get "end_time" fields = JStr end_time
        /\ py_get "unit_of_measurement" fields = JStr unit
        /\ py_get "sampling_frequency" fields = JStr frequency
        /\ if string_mem "/" time_range
           then time_range = start_time ++ String "/" end_time
           else start_time = EmptyString /\ end_time = EmptyString)
  /\ (py_get "location" fields = JNull
      \/ exists lat lon,
           py_get "location" fields
           = JDict [("lat", JFloat lat); ("lon", JFloat lon)]).
Proof.
  intros H. apply record_from_datastream_ok in H.
  destruct H as (location & sensor_type & observed & Hloc & ->).
  split; [reflexivity |].
  split; [apply nodupb_NoDup; reflexivity |].
  split; [reflexivity |]. split; [reflexivity |]. split.
  - do 5 eexists. repeat (split; [reflexivity |]).
    unfold _extract_start_end.
    destruct (split_once "/" (_extract_time_range datastream)) as [[a b] |] eqn:E.
    + destruct (split_once_some _ _ _ _ E) as [Hs Hm].
      assert (Hmem : string_mem "/" (_extract_time_range datastream) = true)
        by (rewrite Hs; now apply string_mem_middle).
      rewrite Hmem. exact Hs.
    + apply split_once_none in E. rewrite E. auto.
  - change (py_get "location" _) with location.
    now apply extract_location_shape in Hloc.
Qed.

Lemma method_get_default_or_dict (v : json) (key : string) (default : json) :
  (exists r, py_method_get_default (py_or v (JDict [])) key default = Ok r)
  <-> dict_or_falsy v.
Proof.
  unfold dict_or_falsy, py_or. destruct (py_truthy v) eqn:T.
  - destruct v; simpl; split; try (intros [? ?]; discriminate); eauto;
      intros [? | [d' ?]]; try discriminate.
  - simpl. split; eauto.
Qed.

Lemma method_get_default_raises (v : json) (key : string) (default : json) :
  ~ dict_or_falsy v ->
  py_method_get_default (py_or v (JDict [])) key default = Raise AttributeError.
Proof.
  intros Hn. unfold py_or. destruct (py_truthy v) eqn:T.
  - destruct v; simpl; auto. exfalso. apply Hn. right. eauto.
  - exfalso. apply Hn. now left.
Qed.

(** X4. A record is returned exactly when the location can be extracted
    and [Sensor] and [ObservedProperty] are each a dictionary or falsy. *)
Theorem record_from_datastream_succeeds_iff (thing datastream : dict json) :
  (exists fields, _record_from_datastream thing datastream = Ok fields)
  <-> (exists location, _extract_location thing = Ok location)
      /\ dict_or_falsy (py_get "Sensor" datastream)
      /\ dict_or_falsy (py_get "ObservedProperty" datastream).
Proof.
  unfold _record_from_datastream.
  rewrite <- (method_get_default_or_dict (py_get "Sensor" datastream)
                "name" (JStr EmptyString)).
  rewrite <- (method_get_default_or_dict (py_get "ObservedProperty" datastream)
                "name" (JStr EmptyString)).
  destruct (_extract_location thing) as [location | e]; simpl.
  - destruct (py_method_get_default
                (py_or (py_get "Sensor" datastream) (JDict [])) "name" _)
      as [s |]; simpl.
    + destruct (py_method_get_default
                  (py_or (py_get "ObservedProperty" datastream) (JDict []))
                  "name" _) as [o |]; simpl.
      * split; intros _; repeat split; eauto.
      * split; [intros [? ?]; discriminate |].
        intros (_ & _ & [? ?]). discriminate.
    + split; [intros [? ?]; discriminate |].
      intros (_ & [? ?] & _). discriminate.
  - split; [intros [? ?]; discriminate |].
    intros ([? ?] & _). discriminate.
Qed.

(** X5. A [Sensor] or an [ObservedProperty] that is truthy and no
    dictionary, a string for instance, makes the call raise
    [AttributeError] once the location is extracted. *)
Theorem record_from_datastream_raises (thing datastream : dict json)
    (location : json) :
  _extract_location thing = Ok location ->
  ~ dict_or_falsy (py_get "Sensor" datastream)
  \/ ~ dict_or_falsy (py_get "ObservedProperty" datastream) ->
  _record_from_datastream thing datastream = Raise AttributeError.
Proof.
  intros Hloc Hn. unfold _record_from_datastream. rewrite Hloc. simpl.
  destruct Hn as [Hn | Hn].
  - now rewrite method_get_default_raises.
  - destruct (py_method_get_default
                (py_or (py_get "Sensor" datastream) (JDict [])) "name" _)
      as [s | e] eqn:E; simpl.
    + now rewrite method_get_default_raises.
    + assert (He : e = AttributeError).
      { unfold py_method_get_default in E.
        destruct (py_or (py_get "Sensor" datastream) (JDict [])); congruence. }
      now subst e.
Qed.

End NormalizerProperties.

(* ================================================================== *)
(** * From the fetched things to the catalogs *)

Section PipelineProperties.

Context {PF : PyFloat}.

(** ** The loop of [collect_metadata] *)

Lemma map_result_length {A B : Type} (f : A -> result B) (l : list A) :
  forall ys, map_result f l = Ok ys -> length ys = length l.
Proof.
  induction l as [| x l IH]; simpl; intros ys H.
  - now injection H as <-.
  - destruct (f x) as [y |]; simpl in H; [| discriminate].
    destruct (map_result f l) as [ys' |]; simpl in H; [| discriminate].
    injection H as <-. simpl. f_equal. now apply IH.
Qed.

Lemma records_of_thing_length (thing : json) (records : list (dict json)) :
  records_of_thing thing = Ok records -> length records = datastream_count thing.
Proof.
  unfold records_of_thing, datastream_count.
  destruct thing as [| | | | | | t]; try discriminate.
  unfold py_or. destruct (py_truthy (py_get "Datastreams" t)) eqn:T; simpl.
  - rewrite T. simpl.
    destruct (py_iter (py_get "Datastreams" t)) as [items |]; simpl;
      [| discriminate].
    apply map_result_length.
  - now intros [= <-].
Qed.

Lemma records_of_things_app (a b : list json) :
  records_of_things (a ++ b)
  = (ra <- records_of_things a ;;
     rb <- records_of_things b ;;
     Ok (ra ++ rb)%list).
Proof.
  induction a as [| thing a IH]; simpl.
  - destruct (records_of_things b); reflexivity.
  - rewrite IH. destruct (records_of_thing thing) as [r |]; simpl; auto.
    destruct (records_of_things a) as [ra |]; simpl; auto.
    destruct (records_of_things b) as [rb |]; simpl; auto.
    now rewrite app_assoc.
Qed.

(** X6. When the loop of [collect_metadata] ends without an exception, it
    has made one record for every datastream of every thing: the number of
    records is the sum of the numbers of datastreams. *)
Theorem one_record_per_datastream (things : list json)
    (records : list (dict json)) :
  records_of_things things = Ok records ->
  length records = list_sum (map datastream_count things).
Proof.
  revert records. induction things as [| thing things IH]; simpl; intros records H.
  - now injection H as <-.
  - destruct (records_of_thing thing) as [r |] eqn:E; simpl in H; [| discriminate].
    destruct (records_of_things things) as [rs |]; simpl in H; [| discriminate].
    injection H as <-. rewrite length_app. f_equal.
    + now apply records_of_thing_length.
    + now apply IH.
Qed.

(** X7. A thing whose [Datastreams] is missing, [None] or empty adds no
    record and changes nothing else: the loop gives what it gives without
    that thing. *)
Theorem thing_without_datastreams_skipped (before after : list json)
    (thing : dict json) :
  py_truthy (py_get "Datastreams" thing) = false ->
  records_of_things (before ++ JDict thing :: after)
  = records_of_things (before ++ after).
Proof.
  intros H. rewrite !records_of_things_app. simpl.
  unfold py_or. rewrite H. simpl.
  destruct (records_of_things before) as [ra |]; simpl; auto.
  destruct (records_of_things after); reflexivity.
Qed.

(** X8. One thing that is not an object, or one datastream that is not an
    object, makes the whole loop raise [AttributeError]: the records of the
    things before it are lost with it. *)
Theorem malformed_thing_fails_collection (before after : list json)
    (thing : json) (records : list (dict json)) :
  records_of_things before = Ok records ->
  (forall t, thing <> JDict t)
  \/ (exists t items item,
        thing = JDict t
        /\ py_get "Datastreams" t = JList (item :: items)
        /\ forall d, item <> JDict d) ->
  records_of_things (before ++ thing :: after) = Raise AttributeError.
Proof.
  intros Hb Hbad. rewrite records_of_things_app, Hb. simpl.
  assert (E : records_of_thing thing = Raise AttributeError).
  { destruct Hbad as [Hn | (t & items & item & -> & Hds & Hn)].
    - destruct thing; auto. now contradiction (Hn d).
    - unfold records_of_thing, py_or. rewrite Hds. simpl.
      destruct item; auto. now contradiction (Hn d). }
  now rewrite E.
Qed.

(** ** The identifiers in the two catalogs *)

Lemma stac_feature_id (collection_id root : string) (record : pyobj) :
  json_field "id" (stac_feature collection_id root record)
  = JStr (item_id_of record).
Proof. reflexivity. Qed.

Lemma dcat_dataset_id (record : pyobj) :
  json_field "@id" (dcat_dataset record) = JStr (item_id_of record)
  /\ json_field "dct:identifier" (dcat_dataset record) = JStr (item_id_of record).
Proof.
  unfold dcat_dataset.
  destruct (has_lat_lon (py_get "location" (obj_fields record))); split; reflexivity.
Qed.

Lemma keyed_item_id (record : pyobj) (key : string) :
  identity_key record = Some key -> JStr (item_id_of record) = catalog_id key.
Proof.
  unfold identity_key, item_id_of, catalog_id.
  destruct (py_get "datastream_id" (obj_fields record)); try discriminate;
    now intros [= <-].
Qed.

Lemma catalog_ids_one (collection_id root : string) (r : pyobj) :
  map (json_field "id")
      match py_get "datastream_id" (obj_fields r) with
      | JNull => []
      | _ => [stac_feature collection_id root r]
      end
  = map catalog_id match identity_key r with Some key => [key] | None => [] end
  /\ map (json_field "@id")
         match py_get "datastream_id" (obj_fields r) with
         | JNull => []
         | _ => [dcat_dataset r]
         end
     = map catalog_id match identity_key r with Some key => [key] | None => [] end.
Proof.
  pose proof (keyed_item_id r) as Hk.
  pose proof (stac_feature_id collection_id root r) as Hs.
  pose proof (proj1 (dcat_dataset_id r)) as Hd.
  unfold identity_key in *.
  destruct (py_get "datastream_id" (obj_fields r)); cbn [map];
    try (split; reflexivity);
    rewrite Hs, Hd, (Hk _ eq_refl); split; reflexivity.
Qed.

Lemma catalog_ids (collection_id root : string) (records : list pyobj) :
  map (json_field "id") (stac_features collection_id root records)
  = map catalog_id (identity_keys records)
  /\ map (json_field "@id") (dcat_datasets records)
     = map catalog_id (identity_keys records).
Proof.
  unfold stac_features, dcat_datasets, identity_keys.
  induction records as [| r records [IH1 IH2]]; [split; reflexivity |].
  cbn [flat_map]. rewrite !map_app, IH1, IH2.
  destruct (catalog_ids_one collection_id root r) as [-> ->]. auto.
Qed.

(** X9. The STAC features and the DCAT datasets carry the same
    identifiers in the same order: ["datastream-"] followed by the identity
    key, for the records that have one. *)
Theorem catalogs_share_identifiers (collection_id root : string)
    (records : list pyobj) :
  map (json_field "id") (stac_features collection_id root records)
  = map (json_field "@id") (dcat_datasets records)
  /\ map (json_field "id") (stac_features collection_id root records)
     = map (fun key => JStr ("datastream-" ++ key)) (identity_keys records)
  /\ map (json_field "dct:identifier") (dcat_datasets records)
     = map (json_field "@id") (dcat_datasets records).
Proof.
  destruct (catalog_ids collection_id root records) as [H1 H2].
  split; [congruence |]. split; [exact H1 |].
  unfold dcat_datasets. clear.
  induction records as [| r records IH]; [reflexivity |].
  cbn [flat_map]. rewrite !map_app, IH. f_equal.
  destruct (dcat_dataset_id r) as [H1 H2].
  destruct (py_get "datastream_id" (obj_fields r)); cbn [map]; auto;
    now rewrite H1, H2.
Qed.

Lemma NoDup_map_injective {A B : Type} (f : A -> B) (l : list A) :
  (forall x y, f x = f y -> x = y) -> NoDup l -> NoDup (map f l).
Proof.
  intros Hinj. induction 1 as [| x l Hx _ IH]; simpl; constructor; auto.
  intros Hin. apply in_map_iff in Hin. destruct Hin as [y [Hy Hin]].
  apply Hinj in Hy. now subst.
Qed.

(** X10. When the identity keys of the records are pairwise distinct, so
    are the identifiers of the STAC features and of the DCAT datasets. *)
Theorem catalog_identifiers_distinct (collection_id root : string)
    (records : list pyobj) :
  NoDup (identity_keys records) ->
  NoDup (map (json_field "id") (stac_features collection_id root records))
  /\ NoDup (map (json_field "@id") (dcat_datasets records)).
Proof.
  intros Hnd. destruct (catalog_ids collection_id root records) as [-> ->].
  assert (H : NoDup (map catalog_id (identity_keys records))).
  { apply NoDup_map_injective; auto. unfold catalog_id. now intros x y [= ->]. }
  auto.
Qed.

Lemma keyed_all (records : list pyobj) :
  (forall e, In e records -> exists k, identity_key e = Some k) ->
  keyed records = records.
Proof.
  unfold keyed. induction records as [| r records IH]; simpl; intros H; auto.
  destruct (H r (or_introl eq_refl)) as [k ->]. f_equal.
  apply IH. intros e He. apply H. now right.
Qed.

Lemma projector_lengths (collection_id root : string) (records : list pyobj) :
  length (stac_features collection_id root records) = length (keyed records)
  /\ length (dcat_datasets records) = length (keyed records).
Proof.
  unfold stac_features, dcat_datasets, keyed, identity_key.
  induction records as [| r records [IH1 IH2]]; simpl; auto.
  rewrite !length_app, IH1, IH2.
  destruct (py_get "datastream_id" (obj_fields r)); simpl; auto.
Qed.

(** X11. Both projectors write one entry per record that has an identity
    key; applied to the final records of a reconciliation they write
    exactly [total] entries. *)
Theorem catalogs_have_total_entries (collection_id root : string)
    (records current_records previous_records : list pyobj)
    (previous_signatures : dict string) :
  length (stac_features collection_id root records) = length (keyed records)
  /\ length (dcat_datasets records) = length (keyed records)
  /\ length (stac_features collection_id root
               (final_records_of (apply_incremental_harvest current_records
                                    previous_records previous_signatures)))
     = total (stats_of (apply_incremental_harvest current_records
                          previous_records previous_signatures))
  /\ length (dcat_datasets
               (final_records_of (apply_incremental_harvest current_records
                                    previous_records previous_signatures)))
     = total (stats_of (apply_incremental_harvest current_records
                          previous_records previous_signatures)).
Proof.
  destruct (projector_lengths collection_id root records) as [H1 H2].
  split; [exact H1 |]. split; [exact H2 |].
  destruct (projector_lengths collection_id root
              (final_records_of (apply_incremental_harvest current_records
                                   previous_records previous_signatures)))
    as [-> ->].
  rewrite keyed_all by (apply final_records_keyed).
  destruct (partition_every_call current_records previous_records
              previous_signatures) as [_ ->].
  auto.
Qed.

(** ** Locations and times in the catalogs *)

(** X12. For a record made by the normalizer, the two catalogs agree on
    the location.  Without one, the STAC geometry and bbox are [None] and
    the DCAT dataset has no [dct:spatial]; with one, the geometry is the
    point [[lon, lat]], the bbox repeats it, and the DCAT coordinates are
    [[lon, lat]] as well. *)
Theorem normalized_location_in_catalogs (thing datastream fields : dict json)
    (i : nat) (collection_id root : string) :
  _record_from_datastream thing datastream = Ok fields ->
  (py_get "location" fields = JNull
   /\ json_field "geometry" (stac_feature collection_id root (mkobj i fields)) = JNull
   /\ json_field "bbox" (stac_feature collection_id root (mkobj i fields)) = JNull
   /\ has_key "dct:spatial" (dcat_dataset (mkobj i fields)) = false)
  \/ (exists lat lon,
        py_get "location" fields = JDict [("lat", JFloat lat); ("lon", JFloat lon)]
        /\ json_field "geometry" (stac_feature collection_id root (mkobj i fields))
           = JDict [("type", JStr "Point");
                    ("coordinates", JList [JFloat lon; JFloat lat])]
        /\ json_field "bbox" (stac_feature collection_id root (mkobj i fields))
           = JList [JFloat lon; JFloat lat; JFloat lon; JFloat lat]
        /\ json_field "coordinates"
             (json_field "locn:geometry"
                (json_field "dct:spatial" (dcat_dataset (mkobj i fields))))
           = JList [JFloat lon; JFloat lat]).
Proof.
  intros H. apply record_from_datastream_ok in H.
  destruct H as (location & sensor_type & observed & Hloc & ->).
  apply extract_location_shape in Hloc.
  destruct Hloc as [-> | (lat & lon & ->)].
  - left. repeat split.
  - right. exists lat, lon. repeat split.
Qed.

Lemma rstrip_slash_snoc (s : string) : rstrip_slash (s ++ "/") = rstrip_slash s.
Proof.
  induction s as [| c s IH]; simpl; [reflexivity | now rewrite IH].
Qed.

Lemma rstrip_slash_no_trailing (s : string) :
  forall t : string, rstrip_slash s <> t ++ "/".
Proof.
  induction s as [| c s IH]; simpl; intros t.
  - destruct t; discriminate.
  - destruct (rstrip_slash s) as [| c' r] eqn:E.
    + destruct (Ascii.eqb_spec c "/") as [-> | Hne].
      * destruct t; discriminate.
      * destruct t as [| c2 t]; simpl.
        -- intros [= ->]. now contradiction Hne.
        -- intros [= _ H]. destruct t; discriminate.
    + destruct t as [| c2 t]; simpl.
      * discriminate.
      * intros [= _ H]. now apply (IH t).
Qed.

Lemma rstrip_slash_slashes (s : string) :
  exists n, s = rstrip_slash s ++ slashes n.
Proof.
  induction s as [| c s [n IH]]; simpl.
  - exists 0. reflexivity.
  - destruct (rstrip_slash s) as [| c' r] eqn:E.
    + simpl in IH. destruct (Ascii.eqb_spec c "/") as [-> | Hne].
      * exists (S n). simpl. now rewrite IH at 1.
      * exists n. simpl. now rewrite IH at 1.
    + exists n. simpl. simpl in IH. now rewrite IH at 1.
Qed.

(** X13. [rstrip("/")] takes away exactly the trailing slashes: the text
    is the result followed by slashes only, and the result ends with none.
    So the STAC document and the URL of the first page are the same for a
    root or an endpoint written with or without a slash at the end. *)
Theorem trailing_slashes_ignored (s : string) (records : list pyobj)
    (collection_id : string) :
  (exists n, s = rstrip_slash s ++ slashes n)
  /\ (forall t, rstrip_slash s <> t ++ "/")
  /\ build_stac_item_collection records collection_id (s ++ "/")
     = build_stac_item_collection records collection_id s
  /\ things_url (s ++ "/") = things_url s.
Proof.
  split; [apply rstrip_slash_slashes |].
  split; [apply rstrip_slash_no_trailing |].
  unfold build_stac_item_collection, things_url.
  now rewrite rstrip_slash_snoc.
Qed.

Lemma py_or_null (v : json) :
  py_or v JNull = JNull \/ py_truthy (py_or v JNull) = true.
Proof.
  unfold py_or. destruct (py_truthy v) eqn:T; auto.
Qed.

(** X14. The three temporal properties of a STAC feature are [None] or a
    truthy value, never an empty string; for a record made by the
    normalizer, [datetime] and [end_datetime] are the same. *)
Theorem stac_temporal_properties (thing datastream fields : dict json)
    (i : nat) (collection_id root : string) (record : pyobj) :
  _record_from_datastream thing datastream = Ok fields ->
  (json_field "datetime"
     (json_field "properties" (stac_feature collection_id root (mkobj i fields)))
   = json_field "end_datetime"
       (json_field "properties" (stac_feature collection_id root (mkobj i fields))))
  /\ Forall (fun key =>
               json_field key
                 (json_field "properties" (stac_feature collection_id root record))
               = JNull
               \/ py_truthy
                    (json_field key
                       (json_field "properties"
                          (stac_feature collection_id root record)))
                  = true)
            ["start_datetime"; "end_datetime"; "datetime"].
Proof.
  intros H. apply record_from_datastream_ok in H.
  destruct H as (location & sensor_type & observed & _ & ->).
  split; [reflexivity |].
  constructor; [apply py_or_null |].
  constructor; [apply py_or_null |].
  constructor; [apply py_or_null | constructor].
Qed.

End PipelineProperties.

(* ================================================================== *)
(** * More on the reconciler *)

Section ReconcilerProperties.

Context {PF : PyFloat}.

(** X15. Reconciling a list of current records in two batches against the
    same previous state gives the final records of the whole list, batch
    after batch, and counters that add up; the signatures of the second
    batch are recorded over those of the first. *)
Theorem reconcile_in_batches (batch1 batch2 previous_records : list pyobj)
    (previous_signatures : dict string) :
  let out1 := apply_incremental_harvest batch1 previous_records
                previous_signatures in
  let out2 := apply_incremental_harvest batch2 previous_records
                previous_signatures in
  let out := apply_incremental_harvest (batch1 ++ batch2)%list previous_records
               previous_signatures in
  final_records_of out = (final_records_of out1 ++ final_records_of out2)%list
  /\ created (stats_of out) = created (stats_of out1) + created (stats_of out2)
  /\ updated (stats_of out) = updated (stats_of out1) + updated (stats_of out2)
  /\ unchanged (stats_of out)
     = unchanged (stats_of out1) + unchanged (stats_of out2)
  /\ total (stats_of out) = total (stats_of out1) + total (stats_of out2)
  /\ signatures_of out = record_signatures (signatures_of out1) batch2.
Proof.
  intros out1 out2 out. unfold out1, out2, out.
  rewrite !apply_incremental_harvest_spec.
  unfold final_records_of, stats_of, signatures_of.
  cbn [fst snd created updated unchanged total].
  rewrite verdicts_app, emitted_all_app, !count_verdicts_app, length_app,
    record_signatures_app.
  repeat split.
Qed.

Lemma dict_mem_set_iff {A : Type} (key key' : string) (value : A) (d : dict A) :
  dict_mem key' (dict_set key value d) = true
  <-> key = key' \/ dict_mem key' d = true.
Proof.
  unfold dict_mem. destruct (string_dec key key') as [-> | Hne].
  - rewrite dict_get_set_same. tauto.
  - rewrite dict_get_set_other by auto. tauto.
Qed.

Lemma record_signatures_mem (l : list pyobj) :
  forall (m : dict string) (k : string),
    dict_mem k (record_signatures m l) = true
    <-> dict_mem k m = true \/ In k (identity_keys l).
Proof.
  unfold record_signatures, identity_keys.
  induction l as [| r l IH]; simpl; intros m k; [tauto |].
  rewrite IH, in_app_iff.
  destruct (identity_key r) as [k' |]; simpl.
  - rewrite dict_mem_set_iff. tauto.
  - tauto.
Qed.

Lemma record_signatures_last (l1 l2 : list pyobj) (r : pyobj) (k : string)
    (m : dict string) :
  identity_key r = Some k -> ~ In k (identity_keys l2) ->
  dict_get k (record_signatures m (l1 ++ r :: l2)) = Some (record_signature r).
Proof.
  intros Hk Hfresh.
  replace (l1 ++ r :: l2)%list with ((l1 ++ [r]) ++ l2)%list
    by (now rewrite <- app_assoc).
  rewrite record_signatures_app, record_signatures_get_fresh by exact Hfresh.
  rewrite record_signatures_app. unfold record_signatures at 1. simpl.
  rewrite Hk. apply dict_get_set_same.
Qed.

(** X16. The new signature map depends on the current records alone.  Its
    keys are the identity keys of the current records, so the signature of
    a record that is no longer fetched is gone; the signature kept for a
    key is the one of the last current record with that key. *)
Theorem new_signatures_from_current_only
    (current_records previous_records : list pyobj)
    (previous_signatures : dict string) :
  signatures_of (apply_incremental_harvest current_records previous_records
                   previous_signatures)
  = signatures_of (apply_incremental_harvest current_records [] [])
  /\ (forall k,
        dict_mem k (signatures_of (apply_incremental_harvest current_records
                                     previous_records previous_signatures))
        = true
        <-> In k (identity_keys current_records))
  /\ (forall l1 l2 r k,
        current_records = (l1 ++ r :: l2)%list ->
        identity_key r = Some k -> ~ In k (identity_keys l2) ->
        dict_get k (signatures_of (apply_incremental_harvest current_records
                                     previous_records previous_signatures))
        = Some (record_signature r)).
Proof.
  rewrite !apply_incremental_harvest_spec. unfold signatures_of.
  cbn [fst snd]. split; [reflexivity |]. split.
  - intros k. rewrite record_signatures_mem. unfold dict_mem. simpl.
    split; [intros [H | H]; [discriminate | exact H] | auto].
  - intros l1 l2 r k -> Hk Hfresh. now apply record_signatures_last.
Qed.

Lemma index_fold_fresh (l : list pyobj) :
  forall (m : dict pyobj) (k : string),
    ~ In k (identity_keys l) ->
    dict_get k (fold_left index_step l m) = dict_get k m.
Proof.
  unfold identity_keys.
  induction l as [| r l IH]; simpl; intros m k H; auto.
  rewrite IH.
  - rewrite index_step_key. destruct (identity_key r) as [k' |] eqn:E; auto.
    apply dict_get_set_other. intros ->. apply H. simpl. now left.
  - intros Hin. apply H. apply in_or_app. now right.
Qed.

(** X17. When several previous records share an identity key, the index
    keeps the last of them: that is the object an unchanged record is
    replaced with. *)
Theorem previous_index_last_wins (l1 l2 : list pyobj) (p : pyobj) (k : string) :
  identity_key p = Some k ->
  ~ In k (identity_keys l2) ->
  dict_get k (index_previous (l1 ++ p :: l2)) = Some p.
Proof.
  intros Hk Hfresh. unfold index_previous.
  rewrite fold_left_app. simpl. rewrite index_fold_fresh by exact Hfresh.
  rewrite index_step_key, Hk. apply dict_get_set_same.
Qed.

(** Under a consistent previous state every emitted record has the key and
    the signature of the current record at its place. *)
Lemma final_records_same_signature (current_records prev : list pyobj)
    (psigs : dict string) :
  consistent_state prev psigs ->
  Forall2 (fun e record => identity_key e = identity_key record
                           /\ record_signature e = record_signature record)
          (final_records_of (apply_incremental_harvest current_records prev psigs))
          (keyed current_records).
Proof.
  intros Hc. rewrite apply_incremental_harvest_spec.
  unfold final_records_of; simpl. unfold emitted_all, verdicts, keyed.
  induction current_records as [| r l IH]; simpl; [constructor |].
  destruct (identity_key r) as [k |] eqn:Hk.
  - destruct (classify (index_previous prev) psigs r) as [| p | |] eqn:E; simpl.
    + unfold classify in E. rewrite Hk in E.
      destruct (dict_get k psigs) as [old |]; [| discriminate].
      destruct (String.eqb old _); [| discriminate].
      destruct (dict_get k (index_previous prev)); discriminate.
    + constructor; auto.
      unfold classify in E. rewrite Hk in E.
      destruct (dict_get k psigs) as [old |] eqn:Eold; [| discriminate].
      destruct (String.eqb_spec old (record_signature r)) as [Esig | _];
        [| discriminate].
      destruct (dict_get k (index_previous prev)) as [p' |] eqn:Ep;
        [| discriminate].
      injection E as ->.
      destruct (index_previous_sound _ _ _ Ep) as [_ Hkp].
      split; [congruence |].
      rewrite <- (Hc k p old Ep Eold). exact Esig.
    + constructor; auto.
    + constructor; auto.
  - rewrite classify_keyless by auto. simpl. exact IH.
Qed.

(** X18. When the previous state is consistent, the final records carry
    the content of the current records: position by position, the emitted
    record has the signature of the keyed current record. *)
Theorem consistent_state_keeps_current_content
    (current_records previous_records : list pyobj)
    (previous_signatures : dict string) :
  consistent_state previous_records previous_signatures ->
  map record_signature
      (final_records_of (apply_incremental_harvest current_records
                           previous_records previous_signatures))
  = map record_signature (keyed current_records).
Proof.
  intros Hc.
  generalize (final_records_same_signature current_records previous_records
                previous_signatures Hc).
  generalize (final_records_of (apply_incremental_harvest current_records
                                  previous_records previous_signatures))
             (keyed current_records).
  intros es rs H.
  induction H as [| e r es rs [_ He] _ IH]; simpl; [reflexivity |].
  now rewrite He, IH.
Qed.

Lemma Forall2_left_witness {A B : Type} (R : A -> B -> Prop) (l1 : list A)
    (l2 : list B) :
  Forall2 R l1 l2 -> forall a, In a l1 -> exists b, In b l2 /\ R a b.
Proof.
  induction 1 as [| a b l1 l2 HR _ IH]; simpl; [contradiction |].
  intros a' [<- | Hin].
  - exists b. auto.
  - destruct (IH _ Hin) as [b' [? ?]]. exists b'. auto.
Qed.

(** X19. Consistency is kept from run to run: from a consistent previous
    state, and with pairwise distinct identity keys among the current
    records, the final records and the new signatures are a consistent
    state again.  The empty state is consistent. *)
Theorem consistent_state_preserved
    (current_records previous_records : list pyobj)
    (previous_signatures : dict string) :
  consistent_state previous_records previous_signatures ->
  NoDup (identity_keys current_records) ->
  consistent_state
    (final_records_of (apply_incremental_harvest current_records
                         previous_records previous_signatures))
    (signatures_of (apply_incremental_harvest current_records
                      previous_records previous_signatures))
  /\ consistent_state [] previous_signatures.
Proof.
  intros Hc Hnd. split; [| intros k p s H; discriminate H].
  intros k e s He Hs.
  apply index_previous_sound in He. destruct He as [Hin Hke].
  destruct (Forall2_left_witness _ _ _
              (final_records_same_signature current_records previous_records
                 previous_signatures Hc) e Hin) as (r & Hr & Hkr & Hsig).
  unfold keyed in Hr. apply filter_In in Hr. destruct Hr as [Hr _].
  rewrite apply_incremental_harvest_spec in Hs. unfold signatures_of in Hs.
  cbn [fst snd] in Hs.
  rewrite (record_signatures_get current_records [] r k Hnd Hr) in Hs
    by congruence.
  injection Hs as <-. now symmetry.
Qed.

Lemma keyed_length_le (records : list pyobj) :
  length (keyed records) <= length records.
Proof. unfold keyed. apply filter_length_le. Qed.

Lemma first_harvest_stats (records : list pyobj) :
  stats_of (apply_incremental_harvest records [] [])
  = mkstats (length (keyed records)) 0 0 (length (keyed records)).
Proof.
  rewrite apply_incremental_harvest_spec. unfold stats_of. cbn [snd].
  unfold verdicts, count_verdicts, emitted_all, keyed, classify.
  induction records as [| r l IH]; simpl; [reflexivity |].
  injection IH as H1 H2 H3 H4.
  destruct (identity_key r); simpl; rewrite ?length_app; simpl; congruence.
Qed.

(** X20. Without incremental mode the statistics count every fetched
    record as created, also the ones without identifier that the catalogs
    leave out; a first incremental harvest counts only the records with an
    identifier.  The two agree exactly when every record has one. *)
Theorem full_and_first_incremental_stats (records : list pyobj)
    (collection_id root : string) :
  total (full_harvest_stats records)
  = length (stac_features collection_id root records)
    + (length records - length (keyed records))
  /\ total (stats_of (apply_incremental_harvest records [] []))
     = length (stac_features collection_id root records)
  /\ total (stats_of (apply_incremental_harvest records [] []))
     <= total (full_harvest_stats records)
  /\ (stats_of (apply_incremental_harvest records [] [])
      = full_harvest_stats records
      <-> length (keyed records) = length records).
Proof.
  rewrite first_harvest_stats.
  destruct (projector_lengths collection_id root records) as [-> _].
  pose proof (keyed_length_le records) as Hle.
  unfold full_harvest_stats. cbn [total].
  split; [lia |]. split; [reflexivity |]. split; [exact Hle |].
  split; [intros [= H]; exact H | intros ->; reflexivity].
Qed.

End ReconcilerProperties.

(* ================================================================== *)
(** * Fetching the pages *)

Section FetchProperties.

Context {PF : PyFloat}.

Variable http_get_json : json -> option json.

(** Following [n] good pages costs [n] rounds of the loop. *)
Lemma fetch_pages_follows (url url' : json) (items : list json) (n : nat) :
  follows http_get_json url items n url' ->
  forall (fuel : nat) (things : list json),
    fetch_pages http_get_json (n + fuel) url things
    = fetch_pages http_get_json fuel url' (things ++ items)%list.
Proof.
  induction 1 as [url | url payload items rest n url' Ht Hget Hit _ IH];
    intros fuel things.
  - now rewrite app_nil_r.
  - simpl. rewrite Ht, Hget, Hit, IH. now rewrite app_assoc.
Qed.

(** X21. When the service answers with [n] pages linked by
    [@iot.nextLink], the last one without a link, the fetch returns the
    items of all the pages in their order, as soon as the fuel allows [n]
    rounds. *)
Theorem fetch_returns_all_pages (endpoint : string) (items : list json)
    (n fuel : nat) (last : json) :
  follows http_get_json (JStr (things_url endpoint)) items n last ->
  py_truthy last = false ->
  n <= fuel ->
  fetch_things_with_expand http_get_json fuel endpoint = Some (Fetched items).
Proof.
  intros Hf Hlast Hle. unfold fetch_things_with_expand.
  replace fuel with (n + (fuel - n)) by lia.
  rewrite (fetch_pages_follows _ _ _ _ Hf).
  destruct (fuel - n); simpl; now rewrite Hlast.
Qed.

(** X22. When a page cannot be fetched, after any number of good pages,
    the fetch fails as a whole: the items read so far are not returned,
    and [collect_metadata] makes no record. *)
Theorem fetch_fails_on_bad_page (endpoint : string) (items : list json)
    (n fuel : nat) (bad : json) :
  follows http_get_json (JStr (things_url endpoint)) items n bad ->
  py_truthy bad = true ->
  http_get_json bad = None ->
  n < fuel ->
  fetch_things_with_expand http_get_json fuel endpoint
  = Some (FetchFailed RequestFailed)
  /\ collect_metadata http_get_json fuel endpoint
     = Some (FetchFailed RequestFailed).
Proof.
  intros Hf Hbad Hget Hlt.
  assert (E : fetch_things_with_expand http_get_json fuel endpoint
              = Some (FetchFailed RequestFailed)).
  { unfold fetch_things_with_expand.
    replace fuel with (n + S (fuel - n - 1)) by lia.
    rewrite (fetch_pages_follows _ _ _ _ Hf). simpl. now rewrite Hbad, Hget. }
  split; [exact E |]. unfold collect_metadata. now rewrite E.
Qed.

End FetchProperties.

(* ================================================================== *)
(** * The normalizer on the sample data *)

Lemma sample_record :
  _record_from_datastream sample_thing sample_datastream
  = Ok [("thing_id", JInt 1); ("thing_name", JStr "station");
        ("datastream_name", JStr "air temperature");
        ("description", JStr "a station");
        ("location", JDict [("lat", lat_46_9); ("lon", lon_7_5)]);
        ("sensor_type", JStr "thermometer");
        ("observed_property", JStr "temperature");
        ("unit_of_measurement", JStr "C");
        ("observation_type", JStr EmptyString);
        ("sampling_frequency", JStr "10min");
        ("time_range", JStr "2024-01-01T00:00:00Z/2024-02-01T00:00:00Z");
        ("start_time", JStr "2024-01-01T00:00:00Z");
        ("end_time", JStr "2024-02-01T00:00:00Z");
        ("last_observation_time", JStr "2024-02-01T00:00:00Z");
        ("datastream_id", JInt 7)].
Proof. reflexivity. Qed.

Lemma sampling_frequency_first_present_witness :
  py_get "properties" sample_datastream
  = JDict [("samplingFrequency", JStr "10min"); ("frequency", JInt 5)]
  /\ _extract_sampling_frequency sample_datastream = "10min".
Proof.
  split; [reflexivity |].
  refine (sampling_frequency_first_present sample_datastream
            [("samplingFrequency", JStr "10min"); ("frequency", JInt 5)]
            ["sampling_frequency"] ["frequency"] "samplingFrequency"
            eq_refl eq_refl _ _).
  - repeat constructor.
  - discriminate.
Defined.

Lemma record_shape_witness :
  (exists fields, _record_from_datastream sample_thing sample_datastream = Ok fields)
  /\ forall fields,
       _record_from_datastream sample_thing sample_datastream = Ok fields ->
       map fst fields = record_keys.
Proof.
  split; [eexists; apply sample_record |].
  intros fields H.
  exact (proj1 (record_shape sample_thing sample_datastream fields H)).
Defined.

Lemma record_from_datastream_raises_witness :
  _extract_location sample_thing = Ok (JDict [("lat", lat_46_9); ("lon", lon_7_5)])
  /\ ~ dict_or_falsy (py_get "Sensor" [("Sensor", JStr "thermometer")])
  /\ _record_from_datastream sample_thing [("Sensor", JStr "thermometer")]
     = Raise AttributeError.
Proof.
  assert (Hn : ~ dict_or_falsy (py_get "Sensor" [("Sensor", JStr "thermometer")])).
  { intros [H | [d H]]; discriminate H. }
  split; [reflexivity |]. split; [exact Hn |].
  exact (record_from_datastream_raises sample_thing [("Sensor", JStr "thermometer")]
           _ eq_refl (or_introl Hn)).
Defined.

Lemma sample_records :
  records_of_things [JDict sample_thing; JDict bare_thing]
  = Ok [[("thing_id", JInt 1); ("thing_name", JStr "station");
         ("datastream_name", JStr "air temperature");
         ("description", JStr "a station");
         ("location", JDict [("lat", lat_46_9); ("lon", lon_7_5)]);
         ("sensor_type", JStr "thermometer");
         ("observed_property", JStr "temperature");
         ("unit_of_measurement", JStr "C");
         ("observation_type", JStr EmptyString);
         ("sampling_frequency", JStr "10min");
         ("time_range", JStr "2024-01-01T00:00:00Z/2024-02-01T00:00:00Z");
         ("start_time", JStr "2024-01-01T00:00:00Z");
         ("end_time", JStr "2024-02-01T00:00:00Z");
         ("last_observation_time", JStr "2024-02-01T00:00:00Z");
         ("datastream_id", JInt 7)];
        [("thing_id", JInt 1); ("thing_name", JStr "station");
         ("datastream_name", JStr "no identifier");
         ("description", JStr "a station");
         ("location", JDict [("lat", lat_46_9); ("lon", lon_7_5)]);
         ("sensor_type", JStr EmptyString);
         ("observed_property", JStr EmptyString);
         ("unit_of_measurement", JStr EmptyString);
         ("observation_type", JStr EmptyString);
         ("sampling_frequency", JStr EmptyString);
         ("time_range", JStr EmptyString);
         ("start_time", JStr EmptyString);
         ("end_time", JStr EmptyString);
         ("last_observation_time", JStr EmptyString);
         ("datastream_id", JNull)]].
Proof. reflexivity. Qed.

Lemma one_record_per_datastream_witness :
  (exists records,
     records_of_things [JDict sample_thing; JDict bare_thing] = Ok records)
  /\ forall records,
       records_of_things [JDict sample_thing; JDict bare_thing] = Ok records ->
       length records = 2.
Proof.
  split; [eexists; apply sample_records |].
  intros records H.
  exact (one_record_per_datastream [JDict sample_thing; JDict bare_thing] records H).
Defined.

Lemma thing_without_datastreams_skipped_witness :
  py_truthy (py_get "Datastreams" bare_thing) = false
  /\ records_of_things ([JDict sample_thing] ++ JDict bare_thing :: [])
     = records_of_things ([JDict sample_thing] ++ []).
Proof.
  split; [reflexivity |].
  exact (thing_without_datastreams_skipped [JDict sample_thing] [] bare_thing
           eq_refl).
Defined.

Lemma malformed_thing_fails_collection_witness :
  (exists records, records_of_things [JDict sample_thing] = Ok records)
  /\ (forall t, JStr "oops" <> JDict t)
  /\ records_of_things ([JDict sample_thing] ++ JStr "oops" :: [JDict bare_thing])
     = Raise AttributeError.
Proof.
  assert (Hn : forall t : dict json, JStr "oops" <> JDict t) by discriminate.
  split; [eexists; reflexivity |]. split; [exact Hn |].
  exact (malformed_thing_fails_collection [JDict sample_thing] [JDict bare_thing]
           (JStr "oops") _ eq_refl (or_introl Hn)).
Defined.

Lemma catalog_identifiers_distinct_witness :
  NoDup (identity_keys [cur_a; no_id; cur_b])
  /\ NoDup (map (json_field "id")
                (stac_features "istsos-datastreams" "http://localhost:8020/stac"
                   [cur_a; no_id; cur_b])).
Proof.
  assert (Hnd : NoDup (identity_keys [cur_a; no_id; cur_b])).
  { vm_compute. repeat constructor; simpl; intuition discriminate. }
  split; [exact Hnd |].
  exact (proj1 (catalog_identifiers_distinct "istsos-datastreams"
                  "http://localhost:8020/stac" [cur_a; no_id; cur_b] Hnd)).
Defined.

Lemma normalized_location_in_catalogs_witness :
  (exists fields, _record_from_datastream sample_thing sample_datastream = Ok fields)
  /\ forall fields,
       _record_from_datastream sample_thing sample_datastream = Ok fields ->
       py_get "location" fields <> JNull ->
       exists lat lon,
         json_field "geometry"
           (stac_feature "istsos-datastreams" "http://localhost:8020/stac"
              (mkobj 40 fields))
         = JDict [("type", JStr "Point");
                  ("coordinates", JList [JFloat lon; JFloat lat])].
Proof.
  split; [eexists; apply sample_record |].
  intros fields H Hloc.
  destruct (normalized_location_in_catalogs sample_thing sample_datastream fields
              40 "istsos-datastreams" "http://localhost:8020/stac" H)
    as [(Hnull & _) | (lat & lon & _ & Hgeo & _)].
  - contradiction.
  - exists lat, lon. exact Hgeo.
Defined.

Lemma stac_temporal_properties_witness :
  (exists fields, _record_from_datastream sample_thing sample_datastream = Ok fields)
  /\ forall fields,
       _record_from_datastream sample_thing sample_datastream = Ok fields ->
       json_field "datetime"
         (json_field "properties"
            (stac_feature "istsos-datastreams" "http://localhost:8020/stac"
               (mkobj 40 fields)))
       = json_field "end_datetime"
           (json_field "properties"
              (stac_feature "istsos-datastreams" "http://localhost:8020/stac"
                 (mkobj 40 fields))).
Proof.
  split; [eexists; apply sample_record |].
  intros fields H.
  exact (proj1 (stac_temporal_properties sample_thing sample_datastream fields 40
                  "istsos-datastreams" "http://localhost:8020/stac" no_id H)).
Defined.

Lemma previous_index_last_wins_witness :
  identity_key dup_b = Some "1"
  /\ ~ In "1" (identity_keys [cur_b])
  /\ dict_get "1" (index_previous ([dup_a] ++ dup_b :: [cur_b])) = Some dup_b.
Proof.
  assert (Hfresh : ~ In "1" (identity_keys [cur_b])).
  { vm_compute. intuition discriminate. }
  split; [reflexivity |]. split; [exact Hfresh |].
  exact (previous_index_last_wins [dup_a] [cur_b] dup_b "1" eq_refl Hfresh).
Defined.

Lemma sample_state_consistent : consistent_state [prev_a] sigs_a.
Proof.
  intros k p s Hp Hs.
  change (index_previous [prev_a]) with [("1", prev_a)] in Hp.
  unfold sigs_a in Hs. cbn [dict_get] in Hp, Hs.
  destruct (String.eqb "1" k); [| discriminate].
  injection Hp as <-. injection Hs as <-. reflexivity.
Qed.

Lemma consistent_state_keeps_current_content_witness :
  consistent_state [prev_a] sigs_a
  /\ map record_signature
         (final_records_of (apply_incremental_harvest [cur_a; no_id; cur_b]
                              [prev_a] sigs_a))
     = map record_signature (keyed [cur_a; no_id; cur_b]).
Proof.
  split; [exact sample_state_consistent |].
  exact (consistent_state_keeps_current_content [cur_a; no_id; cur_b] [prev_a]
           sigs_a sample_state_consistent).
Defined.

Lemma consistent_state_preserved_witness :
  consistent_state [prev_a] sigs_a
  /\ NoDup (identity_keys [cur_a; no_id; cur_b])
  /\ consistent_state
       (final_records_of (apply_incremental_harvest [cur_a; no_id; cur_b]
                            [prev_a] sigs_a))
       (signatures_of (apply_incremental_harvest [cur_a; no_id; cur_b]
                         [prev_a] sigs_a)).
Proof.
  assert (Hnd : NoDup (identity_keys [cur_a; no_id; cur_b])).
  { vm_compute. repeat constructor; simpl; intuition discriminate. }
  split; [exact sample_state_consistent |]. split; [exact Hnd |].
  exact (proj1 (consistent_state_preserved [cur_a; no_id; cur_b] [prev_a] sigs_a
                  sample_state_consistent Hnd)).
Defined.

Lemma sample_service_pages :
  follows sample_service (JStr (things_url "http://host/v1.1/"))
          [JDict sample_thing; JDict bare_thing] 2 JNull.
Proof.
  apply (follows_page sample_service (JStr (things_url "http://host/v1.1/"))
           [("value", JList [JDict sample_thing]);
            ("@iot.nextLink", JStr "http://host/page2")]
           [JDict sample_thing] [JDict bare_thing] 1 JNull);
    try reflexivity.
  apply (follows_page sample_service (JStr "http://host/page2")
           [("value", JList [JDict bare_thing])]
           [JDict bare_thing] [] 0 JNull);
    try reflexivity.
  apply follows_none.
Qed.

Lemma fetch_returns_all_pages_witness :
  follows sample_service (JStr (things_url "http://host/v1.1/"))
          [JDict sample_thing; JDict bare_thing] 2 JNull
  /\ py_truthy JNull = false
  /\ 2 <= 5
  /\ fetch_things_with_expand sample_service 5 "http://host/v1.1/"
     = Some (Fetched [JDict sample_thing; JDict bare_thing]).
Proof.
  assert (Hle : 2 <= 5) by lia.
  split; [exact sample_service_pages |]. split; [reflexivity |].
  split; [exact Hle |].
  exact (fetch_returns_all_pages sample_service "http://host/v1.1/" _ 2 5 JNull
           sample_service_pages eq_refl Hle).
Defined.

Lemma broken_service_pages :
  follows broken_service (JStr (things_url "http://host/v1.1/"))
          [JDict sample_thing] 1 (JStr "http://host/gone").
Proof.
  apply (follows_page broken_service (JStr (things_url "http://host/v1.1/"))
           [("value", JList [JDict sample_thing]);
            ("@iot.nextLink", JStr "http://host/gone")]
           [JDict sample_thing] [] 0 (JStr "http://host/gone"));
    try reflexivity.
  apply follows_none.
Qed.

Lemma fetch_fails_on_bad_page_witness :
  follows broken_service (JStr (things_url "http://host/v1.1/"))
          [JDict sample_thing] 1 (JStr "http://host/gone")
  /\ broken_service (JStr "http://host/gone") = None
  /\ 1 < 5
  /\ collect_metadata broken_service 5 "http://host/v1.1/"
     = Some (FetchFailed RequestFailed).
Proof.
  assert (Hlt : 1 < 5) by lia.
  split; [exact broken_service_pages |]. split; [reflexivity |].
  split; [exact Hlt |].
  exact (proj2 (fetch_fails_on_bad_page broken_service "http://host/v1.1/" _ 1 5
                  (JStr "http://host/gone") broken_service_pages eq_refl eq_refl
                  Hlt)).
Defined.

(** The whole of [collect_metadata] on the two pages. *)
Lemma collect_metadata_sample :
  exists records,
    collect_metadata sample_service 5 "http://host/v1.1/" = Some (Fetched records)
    /\ length records = 2.
Proof. eexists. split; reflexivity. Qed.

Lemma load_previous_state_fallback_witness :
  load_previous_state FileInvalidJson
    (FileJson (JDict [("signatures", JList [JInt 1])]))
  = Ok ([], []).
Proof.
  apply (load_previous_state_fallback FileInvalidJson
           (FileJson (JDict [("signatures", JList [JInt 1])]))
           [("signatures", JList [JInt 1])]).
  - right. right. now left.
  - right. right. right. split; [reflexivity |]. discriminate.
Defined.

Lemma state_file_crashes_witness :
  (forall d : dict json, JInt 5 <> JDict d)
  /\ FileUnreadable <> FileNotUtf8
  /\ load_previous_state FileUnreadable (FileJson (JInt 5)) = Raise AttributeError
  /\ load_previous_state FileUnreadable FileNotUtf8 = Raise UnicodeDecodeError
  /\ forall state_file : file_state,
       load_previous_state FileNotUtf8 state_file = Raise UnicodeDecodeError.
Proof.
  assert (Hn : forall d : dict json, JInt 5 <> JDict d) by discriminate.
  assert (Hr : FileUnreadable <> FileNotUtf8) by discriminate.
  split; [exact Hn |]. split; [exact Hr |].
  exact (state_file_crashes FileUnreadable (JInt 5) Hn Hr).
Defined.
